(** * LoggingCallbackManager: the callback registry of litellm

    A shallow embedding of
    [litellm/litellm_core_utils/logging_callback_manager.py] and the
    properties of its registration operations.

    The Python code inspects its argument at run time ([isinstance]),
    compares it with the entries of a list ([in]), appends to lists held
    by the [litellm] module and writes debug records.  The embedding keeps
    these four ingredients explicit:
    - a small model of Python values with their class, identity and
      [__name__] attribute;
    - the seven callback lists and the debug log as one state record;
    - procedures as functions from a state to an outcome, which is either
      a normal return or a raised exception, both with the state reached;
    - one definition per method of the class, with the method's name. *)

From Stdlib Require Import List String Bool Arith Lia.
Import ListNotations.
Open Scope string_scope.
Open Scope list_scope.

(** ** Python values *)

(** A class object: its name (which identifies it), the names of the other
    classes of its method resolution order, and whether a [__call__] method
    is found along that order. *)
Record pyclass : Type := {
  cname : string;
  cbases : list string;
  ccall : bool
}.

(** [issubclass(C, D)]: [D] is [C] or one of the classes [C] derives from. *)
Definition issubclass (C D : pyclass) : bool :=
  existsb (String.eqb (cname D)) (cname C :: cbases C).

Definition str : pyclass :=
  {| cname := "str"; cbases := ["object"]; ccall := false |}.

Definition NoneType : pyclass :=
  {| cname := "NoneType"; cbases := ["object"]; ccall := false |}.

(** Modelled from the spec: the class [CustomLogger] of
    [litellm.integrations.custom_logger], which is not among the sources;
    it is the recognizable base capability of the stateful handlers, a plain
    class that derives from [object] only. *)
Definition CustomLogger : pyclass :=
  {| cname := "CustomLogger"; cbases := ["object"]; ccall := false |}.

(** The values a caller can pass: [None], a string, or any other object.
    An object carries its identity ([id(o)]), its class ([o.__class__]) and
    its [__name__] attribute when it has one (a function or a class has,
    a [functools.partial] or an instance with [__call__] has not). *)
Inductive pyvalue : Type :=
| PyNone
| PyStr (s : string)
| PyObj (oid : nat) (cls : pyclass) (name_attr : option string).

Definition type_of (v : pyvalue) : pyclass :=
  match v with
  | PyNone => NoneType
  | PyStr _ => str
  | PyObj _ cls _ => cls
  end.

Definition isinstance (v : pyvalue) (C : pyclass) : bool :=
  issubclass (type_of v) C.

Definition isinstance_str (v : pyvalue) : bool :=
  match v with PyStr _ => true | _ => false end.

(** [isinstance(v, Callable)]: the class of [v] provides [__call__]. *)
Definition isinstance_Callable (v : pyvalue) : bool :=
  ccall (type_of v).

Definition is_None (v : pyvalue) : bool :=
  match v with PyNone => true | _ => false end.

(** [v.__name__] *)
Definition getattr_name (v : pyvalue) : option string :=
  match v with
  | PyObj _ _ name_attr => name_attr
  | _ => None
  end.

Definition pyclass_eq_dec (C D : pyclass) : {C = D} + {C <> D}.
Proof.
  decide equality.
  - apply bool_dec.
  - apply (list_eq_dec string_dec).
  - apply string_dec.
Defined.

Definition pyvalue_eq_dec (v w : pyvalue) : {v = w} + {v <> w}.
Proof.
  decide equality.
  - apply string_dec.
  - decide equality. apply string_dec.
  - apply pyclass_eq_dec.
  - apply Nat.eq_dec.
Defined.

(** The comparison made by [in]: [x is e or x == e].  Strings compare by
    content; every other object of the model keeps the default [__eq__] of
    [object], which is identity.  An object is the same object exactly when
    it is the same value, identity included.  Objects whose class overrides
    [__eq__] are not among the values of the model: bound methods, which
    compare by [__self__] and [__func__], are the common case.  Statements
    below that must hold for them too are phrased through [py_eq] and
    [py_in], not through equality of values. *)
Definition py_eq (x e : pyvalue) : bool :=
  if pyvalue_eq_dec x e then true else false.

(** [x in l] *)
Definition py_in (x : pyvalue) (l : list pyvalue) : bool :=
  existsb (py_eq x) l.

(** ** The state: the lists of the [litellm] module and the debug log *)

(** What [verbose_logger.debug] is called with; the rendering of the list in
    the message is left out. *)
Inductive debug_event : Type :=
| CallbackAlreadyExists (callback : pyvalue)
| CallbackFunctionAlreadyExists (name : string)
| CustomLoggerAlreadyExists (class_name : string).

(** Modelled from the spec: the module [litellm], which is not among the
    sources, holds seven separate callback lists (input, service, generic,
    sync-success, sync-failure, async-success, async-failure); the field
    [verbose_logger] collects the debug records written so far. *)
Record litellm : Type := {
  input_callback : list pyvalue;
  service_callback : list pyvalue;
  callbacks : list pyvalue;
  success_callback : list pyvalue;
  failure_callback : list pyvalue;
  _async_success_callback : list pyvalue;
  _async_failure_callback : list pyvalue;
  verbose_logger : list debug_event
}.

(** A [parent_list] argument is a reference to the list object held by one
    attribute of the module. *)
Inductive list_ref : Type :=
| litellm_input_callback
| litellm_service_callback
| litellm_callbacks
| litellm_success_callback
| litellm_failure_callback
| litellm__async_success_callback
| litellm__async_failure_callback.

Definition list_ref_eq_dec (r r' : list_ref) : {r = r'} + {r <> r'}.
Proof. decide equality. Defined.

Definition deref (r : list_ref) (st : litellm) : list pyvalue :=
  match r with
  | litellm_input_callback => input_callback st
  | litellm_service_callback => service_callback st
  | litellm_callbacks => callbacks st
  | litellm_success_callback => success_callback st
  | litellm_failure_callback => failure_callback st
  | litellm__async_success_callback => _async_success_callback st
  | litellm__async_failure_callback => _async_failure_callback st
  end.

Definition assign (r : list_ref) (l : list pyvalue) (st : litellm) : litellm :=
  match r with
  | litellm_input_callback =>
      {| input_callback := l;
         service_callback := service_callback st;
         callbacks := callbacks st;
         success_callback := success_callback st;
         failure_callback := failure_callback st;
         _async_success_callback := _async_success_callback st;
         _async_failure_callback := _async_failure_callback st;
         verbose_logger := verbose_logger st |}
  | litellm_service_callback =>
      {| input_callback := input_callback st;
         service_callback := l;
         callbacks := callbacks st;
         success_callback := success_callback st;
         failure_callback := failure_callback st;
         _async_success_callback := _async_success_callback st;
         _async_failure_callback := _async_failure_callback st;
         verbose_logger := verbose_logger st |}
  | litellm_callbacks =>
      {| input_callback := input_callback st;
         service_callback := service_callback st;
         callbacks := l;
         success_callback := success_callback st;
         failure_callback := failure_callback st;
         _async_success_callback := _async_success_callback st;
         _async_failure_callback := _async_failure_callback st;
         verbose_logger := verbose_logger st |}
  | litellm_success_callback =>
      {| input_callback := input_callback st;
         service_callback := service_callback st;
         callbacks := callbacks st;
         success_callback := l;
         failure_callback := failure_callback st;
         _async_success_callback := _async_success_callback st;
         _async_failure_callback := _async_failure_callback st;
         verbose_logger := verbose_logger st |}
  | litellm_failure_callback =>
      {| input_callback := input_callback st;
         service_callback := service_callback st;
         callbacks := callbacks st;
         success_callback := success_callback st;
         failure_callback := l;
         _async_success_callback := _async_success_callback st;
         _async_failure_callback := _async_failure_callback st;
         verbose_logger := verbose_logger st |}
  | litellm__async_success_callback =>
      {| input_callback := input_callback st;
         service_callback := service_callback st;
         callbacks := callbacks st;
         success_callback := success_callback st;
         failure_callback := failure_callback st;
         _async_success_callback := l;
         _async_failure_callback := _async_failure_callback st;
         verbose_logger := verbose_logger st |}
  | litellm__async_failure_callback =>
      {| input_callback := input_callback st;
         service_callback := service_callback st;
         callbacks := callbacks st;
         success_callback := success_callback st;
         failure_callback := failure_callback st;
         _async_success_callback := _async_success_callback st;
         _async_failure_callback := l;
         verbose_logger := verbose_logger st |}
  end.

(** ** Procedures *)

Inductive pyexn : Type :=
| AttributeError (attr : string).

(** A call either returns or raises; both leave a state behind. *)
Inductive outcome : Type :=
| Returns (st : litellm)
| Raises (e : pyexn) (st : litellm).

Definition final (o : outcome) : litellm :=
  match o with
  | Returns st => st
  | Raises _ st => st
  end.

Definition proc : Type := litellm -> outcome.

Definition pass : proc := fun st => Returns st.

Definition raise (e : pyexn) : proc := fun st => Raises e st.

(** Statement sequencing: an exception skips what follows. *)
Definition andthen (p q : proc) : proc :=
  fun st =>
    match p st with
    | Returns st' => q st'
    | Raises e st' => Raises e st'
    end.

Declare Scope proc_scope.
Delimit Scope proc_scope with proc.
Notation "p ;; q" := (andthen p q) (at level 61, right associativity) : proc_scope.
Open Scope proc_scope.

(** [parent_list.append(x)] *)
Definition append (parent_list : list_ref) (x : pyvalue) : proc :=
  fun st => Returns (assign parent_list (deref parent_list st ++ [x]) st).

(** The state with one more debug record. *)
Definition logged (ev : debug_event) (st : litellm) : litellm :=
  {| input_callback := input_callback st;
     service_callback := service_callback st;
     callbacks := callbacks st;
     success_callback := success_callback st;
     failure_callback := failure_callback st;
     _async_success_callback := _async_success_callback st;
     _async_failure_callback := _async_failure_callback st;
     verbose_logger := verbose_logger st ++ [ev] |}.

(** [verbose_logger.debug(...)] *)
Definition debug (ev : debug_event) : proc :=
  fun st => Returns (logged ev st).

(** ** The methods of [LoggingCallbackManager] *)


Definition _add_string_callback_to_list
    (callback : pyvalue) (parent_list : list_ref) : proc :=
  fun st =>
    if negb (py_in callback (deref parent_list st))
    then append parent_list callback st
    else debug (CallbackAlreadyExists callback) st.

(** The message of the [else] branch is an f-string that reads
    [callback.__name__]; it is built before [debug] is called, whatever the
    log level. *)
Definition _add_callback_function_to_list
    (callback : pyvalue) (parent_list : list_ref) : proc :=
  fun st =>
    if negb (py_in callback (deref parent_list st))
    then append parent_list callback st
    else
      match getattr_name callback with
      | Some name => debug (CallbackFunctionAlreadyExists name) st
      | None => raise (AttributeError "__name__") st
      end.

(** The [for existing_logger in parent_list] loop, which stops at the first
    entry that is an instance of [CustomLogger] and of [logger_class]. *)
Fixpoint instance_exists (logger_class : pyclass) (parent_list : list pyvalue)
  : bool :=
  match parent_list with
  | [] => false
  | existing_logger :: rest =>
      if isinstance existing_logger CustomLogger
         && isinstance existing_logger logger_class
      then true
      else instance_exists logger_class rest
  end.

Definition _add_custom_logger_to_list
    (custom_logger : pyvalue) (parent_list : list_ref) : proc :=
  fun st =>
    let logger_class := type_of custom_logger in
    if instance_exists logger_class (deref parent_list st)
    then debug (CustomLoggerAlreadyExists (cname logger_class)) st
    else append parent_list custom_logger st.

Definition _safe_add_callback_to_list
    (callback : pyvalue) (parent_list : list_ref) : proc :=
  if isinstance_str callback then
    _add_string_callback_to_list callback parent_list
  else if isinstance_Callable callback then
    _add_callback_function_to_list callback parent_list
  else if isinstance callback CustomLogger then
    _add_custom_logger_to_list callback parent_list
  else pass.

Definition add_input_callback (callback : pyvalue) : proc :=
  _safe_add_callback_to_list callback litellm_input_callback.

Definition add_service_callback (callback : pyvalue) : proc :=
  _safe_add_callback_to_list callback litellm_service_callback.

Definition add_callback (callback : pyvalue) : proc :=
  _safe_add_callback_to_list callback litellm_callbacks.

Definition add_sync_success_callback (callback : pyvalue) : proc :=
  _safe_add_callback_to_list callback litellm_success_callback.

Definition add_sync_failure_callback (callback : pyvalue) : proc :=
  _safe_add_callback_to_list callback litellm_failure_callback.

Definition add_async_success_callback (callback : pyvalue) : proc :=
  _safe_add_callback_to_list callback litellm__async_success_callback.

Definition add_async_failure_callback (callback : pyvalue) : proc :=
  _safe_add_callback_to_list callback litellm__async_failure_callback.

Definition add_success_callback_sync_and_async (callback : pyvalue) : proc :=
  add_sync_success_callback callback ;;
  add_async_success_callback callback ;;
  pass.

Definition add_failure_callback_sync_and_async (callback : pyvalue) : proc :=
  add_sync_failure_callback callback ;;
  add_async_failure_callback callback.

Definition _add_custom_logger_to_all_callback_lists
    (custom_logger : pyvalue) : proc :=
  if is_None custom_logger then pass
  else if isinstance custom_logger CustomLogger then
    add_sync_success_callback custom_logger ;;
    add_async_success_callback custom_logger ;;
    add_sync_failure_callback custom_logger ;;
    add_async_failure_callback custom_logger ;;
    add_input_callback custom_logger ;;
    add_service_callback custom_logger
  else pass.

Definition _reset_all_callbacks : proc :=
  fun st =>
    Returns
      {| input_callback := [];
         service_callback := service_callback st;
         callbacks := callbacks st;
         success_callback := [];
         failure_callback := [];
         _async_success_callback := [];
         _async_failure_callback := [];
         verbose_logger := verbose_logger st |}.

(** ** Vocabulary of the registry *)

(** The branch of [_safe_add_callback_to_list] a value is sent to. *)
Inductive variant : Type :=
| NamedCallback
| FunctionCallback
| StatefulHandler
| Unrecognized.

Definition variant_of (callback : pyvalue) : variant :=
  if isinstance_str callback then NamedCallback
  else if isinstance_Callable callback then FunctionCallback
  else if isinstance callback CustomLogger then StatefulHandler
  else Unrecognized.

(** The identity rule of each variant: whether the entry [e] of a list makes
    [callback] a duplicate. *)
Definition duplicate_of (callback e : pyvalue) : bool :=
  match variant_of callback with
  | NamedCallback | FunctionCallback => py_eq callback e
  | StatefulHandler =>
      isinstance e CustomLogger && isinstance e (type_of callback)
  | Unrecognized => false
  end.

(** [callback] is of a recognized variant and distinct, under its identity
    rule, from every entry of [l]. *)
Definition admissible (callback : pyvalue) (l : list pyvalue) : bool :=
  match variant_of callback with
  | Unrecognized => false
  | _ => forallb (fun e => negb (duplicate_of callback e)) l
  end.

(** Number of entries of [l] that are instances of the class [C]. *)
Definition count_instances (C : pyclass) (l : list pyvalue) : nat :=
  List.length (filter (fun e => isinstance e C) l).

(** Number of entries of [l] whose concrete class is [C]. *)
Definition count_exact_class (C : pyclass) (l : list pyvalue) : nat :=
  List.length (filter (fun e => String.eqb (cname (type_of e)) (cname C)) l).

(** Number of entries of [l] equal to [x]. *)
Definition count_equal (x : pyvalue) (l : list pyvalue) : nat :=
  count_occ pyvalue_eq_dec l x.

(** The registration operations, as calls with their argument. *)
Inductive operation : Type :=
| call_add_input_callback (callback : pyvalue)
| call_add_service_callback (callback : pyvalue)
| call_add_callback (callback : pyvalue)
| call_add_sync_success_callback (callback : pyvalue)
| call_add_sync_failure_callback (callback : pyvalue)
| call_add_async_success_callback (callback : pyvalue)
| call_add_async_failure_callback (callback : pyvalue)
| call_add_success_callback_sync_and_async (callback : pyvalue)
| call_add_failure_callback_sync_and_async (callback : pyvalue)
| call__add_custom_logger_to_all_callback_lists (custom_logger : pyvalue).

Definition run (o : operation) : proc :=
  match o with
  | call_add_input_callback cb => add_input_callback cb
  | call_add_service_callback cb => add_service_callback cb
  | call_add_callback cb => add_callback cb
  | call_add_sync_success_callback cb => add_sync_success_callback cb
  | call_add_sync_failure_callback cb => add_sync_failure_callback cb
  | call_add_async_success_callback cb => add_async_success_callback cb
  | call_add_async_failure_callback cb => add_async_failure_callback cb
  | call_add_success_callback_sync_and_async cb =>
      add_success_callback_sync_and_async cb
  | call_add_failure_callback_sync_and_async cb =>
      add_failure_callback_sync_and_async cb
  | call__add_custom_logger_to_all_callback_lists cb =>
      _add_custom_logger_to_all_callback_lists cb
  end.

Definition argument (o : operation) : pyvalue :=
  match o with
  | call_add_input_callback cb
  | call_add_service_callback cb
  | call_add_callback cb
  | call_add_sync_success_callback cb
  | call_add_sync_failure_callback cb
  | call_add_async_success_callback cb
  | call_add_async_failure_callback cb
  | call_add_success_callback_sync_and_async cb
  | call_add_failure_callback_sync_and_async cb
  | call__add_custom_logger_to_all_callback_lists cb => cb
  end.


(** Every list of [st'] starts with the entries of the same list of [st],
    in their order. *)
Definition extends_lists (st st' : litellm) : Prop :=
  forall r, exists suffix, deref r st' = deref r st ++ suffix.

(** The lists an operation registers its argument in, in the order of its
    calls; the broadcast has none when its guards do not pass. *)
Definition targets (o : operation) : list list_ref :=
  match o with
  | call_add_input_callback _ => [litellm_input_callback]
  | call_add_service_callback _ => [litellm_service_callback]
  | call_add_callback _ => [litellm_callbacks]
  | call_add_sync_success_callback _ => [litellm_success_callback]
  | call_add_sync_failure_callback _ => [litellm_failure_callback]
  | call_add_async_success_callback _ => [litellm__async_success_callback]
  | call_add_async_failure_callback _ => [litellm__async_failure_callback]
  | call_add_success_callback_sync_and_async _ =>
      [litellm_success_callback; litellm__async_success_callback]
  | call_add_failure_callback_sync_and_async _ =>
      [litellm_failure_callback; litellm__async_failure_callback]
  | call__add_custom_logger_to_all_callback_lists custom_logger =>
      if is_None custom_logger then []
      else if isinstance custom_logger CustomLogger then
        [litellm_success_callback; litellm__async_success_callback;
         litellm_failure_callback; litellm__async_failure_callback;
         litellm_input_callback; litellm_service_callback]
      else []
  end.

(** One guarded append of the same callback per list, in order. *)
Fixpoint add_to_each (cb : pyvalue) (refs : list list_ref) : proc :=
  match refs with
  | [] => pass
  | r :: rest => _safe_add_callback_to_list cb r ;; add_to_each cb rest
  end.

(** [e] is an entry sent to the handler branch whose concrete class is [C]. *)
Definition handler_of_class (C : pyclass) (e : pyvalue) : bool :=
  match variant_of e with
  | StatefulHandler => String.eqb (cname (type_of e)) (cname C)
  | _ => false
  end.

(** Number of handlers of concrete class [C] in [l]. *)
Definition count_handlers (C : pyclass) (l : list pyvalue) : nat :=
  List.length (filter (handler_of_class C) l).

(** What a registration guarantees about a list: a string or a callable is
    an entry of it; for a handler, some entry is an instance of
    [CustomLogger] and of the handler's class. *)
Definition registered (cb : pyvalue) (l : list pyvalue) : bool :=
  match variant_of cb with
  | NamedCallback | FunctionCallback => py_in cb l
  | StatefulHandler => instance_exists (type_of cb) l
  | Unrecognized => false
  end.

(** No list holds the same entry twice. *)
Definition no_duplicates (st : litellm) : Prop :=
  forall r, NoDup (deref r st).

(** No list holds two handlers of the same concrete class. *)
Definition one_handler_per_class (st : litellm) : Prop :=
  forall r C, count_handlers C (deref r st) <= 1.


(** What a program does with the manager: a registration or a reset. *)
Inductive command : Type :=
| Call (o : operation)
| Reset.

Definition exec (c : command) : proc :=
  match c with
  | Call o => run o
  | Reset => _reset_all_callbacks
  end.

(** The state after a history of commands, each one run until it returns or
    raises (the caller may catch the exception and go on). *)
Definition after_history (cs : list command) (st : litellm) : litellm :=
  fold_left (fun st c => final (exec c st)) cs st.

(** The registry right after import: every list empty, nothing logged. *)
Definition initial : litellm :=
  {| input_callback := [];
     service_callback := [];
     callbacks := [];
     success_callback := [];
     failure_callback := [];
     _async_success_callback := [];
     _async_failure_callback := [];
     verbose_logger := [] |}.

(** Concrete classes and objects used as inputs below. *)
Module Examples.

Definition function : pyclass :=
  {| cname := "function"; cbases := ["object"]; ccall := true |}.

Definition partial : pyclass :=
  {| cname := "functools.partial"; cbases := ["object"]; ccall := true |}.

Definition int : pyclass :=
  {| cname := "int"; cbases := ["object"]; ccall := false |}.

(** [class BaseHandler(CustomLogger)] and
    [class DerivedHandler(BaseHandler)] *)
Definition BaseHandler : pyclass :=
  {| cname := "BaseHandler";
     cbases := ["CustomLogger"; "object"];
     ccall := false |}.

Definition DerivedHandler : pyclass :=
  {| cname := "DerivedHandler";
     cbases := ["BaseHandler"; "CustomLogger"; "object"];
     ccall := false |}.

Definition OtherHandler : pyclass :=
  {| cname := "OtherHandler";
     cbases := ["CustomLogger"; "object"];
     ccall := false |}.

(** The [n]-th of a family of distinct functions, all named [log]. *)
Definition fn (n : nat) : pyvalue := PyObj n function (Some "log").

(** [functools.partial(print)] *)
Definition partial_print : pyvalue := PyObj 100 partial None.

Definition five : pyvalue := PyObj 101 int None.

Definition base1 : pyvalue := PyObj 201 BaseHandler None.
Definition base2 : pyvalue := PyObj 202 BaseHandler None.
Definition derived1 : pyvalue := PyObj 203 DerivedHandler None.
Definition other1 : pyvalue := PyObj 204 OtherHandler None.

(** [class SecondDerivedHandler(BaseHandler)] and an instance of it. *)
Definition SecondDerivedHandler : pyclass :=
  {| cname := "SecondDerivedHandler";
     cbases := ["BaseHandler"; "CustomLogger"; "object"];
     ccall := false |}.

Definition derived2 : pyvalue := PyObj 205 SecondDerivedHandler None.

End Examples.

(** * Properties *)

(** ** Reading and writing the lists *)

Lemma deref_assign_same r l st : deref r (assign r l st) = l.
Proof. destruct r; reflexivity. Qed.

Lemma deref_assign_other r r' l st :
  r <> r' -> deref r' (assign r l st) = deref r' st.
Proof. intros Hne; destruct r, r'; try reflexivity; congruence. Qed.

Lemma deref_logged r ev st : deref r (logged ev st) = deref r st.
Proof. destruct r; reflexivity. Qed.

Lemma deref_debug r ev st : deref r (final (debug ev st)) = deref r st.
Proof. apply deref_logged. Qed.

Lemma andthen_returns (p q : proc) st st1 :
  p st = Returns st1 -> (p ;; q) st = q st1.
Proof. unfold andthen; intros ->; reflexivity. Qed.

Lemma andthen_raises (p q : proc) st e st1 :
  p st = Raises e st1 -> (p ;; q) st = Raises e st1.
Proof. unfold andthen; intros ->; reflexivity. Qed.

(** ** Comparison and membership *)

Lemma py_eq_true x e : py_eq x e = true <-> x = e.
Proof.
  unfold py_eq; destruct (pyvalue_eq_dec x e); split; congruence.
Qed.

Lemma py_eq_refl x : py_eq x x = true.
Proof. apply py_eq_true; reflexivity. Qed.

Lemma py_in_In x l : py_in x l = true <-> In x l.
Proof.
  unfold py_in; rewrite existsb_exists; split.
  - intros [e [Hin Heq]]; apply py_eq_true in Heq; subst; assumption.
  - intros Hin; exists x; split; [assumption | apply py_eq_refl].
Qed.

Lemma py_in_app x l1 l2 : py_in x (l1 ++ l2) = py_in x l1 || py_in x l2.
Proof. unfold py_in; apply existsb_app. Qed.

Lemma issubclass_refl C : issubclass C C = true.
Proof. unfold issubclass; simpl; rewrite String.eqb_refl; reflexivity. Qed.

Lemma instance_exists_existsb C l :
  instance_exists C l =
  existsb (fun e => isinstance e CustomLogger && isinstance e C) l.
Proof.
  induction l as [| e l IH]; simpl; [reflexivity |].
  destruct (isinstance e CustomLogger && isinstance e C); simpl; auto.
Qed.

Lemma forallb_negb_existsb {A} (f : A -> bool) l :
  forallb (fun e => negb (f e)) l = negb (existsb f l).
Proof.
  induction l as [| e l IH]; simpl; [reflexivity |].
  rewrite IH; destruct (f e); reflexivity.
Qed.

(** ** What one guarded append does *)

(** An admissible callback is appended to the list it is registered in. *)
Lemma safe_add_admissible cb r st :
  admissible cb (deref r st) = true ->
  _safe_add_callback_to_list cb r st =
  Returns (assign r (deref r st ++ [cb]) st).
Proof.
  unfold admissible, duplicate_of, variant_of, _safe_add_callback_to_list.
  destruct (isinstance_str cb).
  - rewrite forallb_negb_existsb; intros H.
    unfold _add_string_callback_to_list, py_in; rewrite H; reflexivity.
  - destruct (isinstance_Callable cb).
    + rewrite forallb_negb_existsb; intros H.
      unfold _add_callback_function_to_list, py_in; rewrite H; reflexivity.
    + destruct (isinstance cb CustomLogger); [| discriminate].
      rewrite forallb_negb_existsb, <- instance_exists_existsb; intros H.
      unfold _add_custom_logger_to_list.
      apply negb_true_iff in H; rewrite H; reflexivity.
Qed.

(** Whatever the argument, a guarded append either appends it to the target
    list or leaves every list as it was. *)
Lemma safe_add_cases cb r st :
  _safe_add_callback_to_list cb r st =
    Returns (assign r (deref r st ++ [cb]) st)
  \/ forall r', deref r' (final (_safe_add_callback_to_list cb r st))
                = deref r' st.
Proof.
  unfold _safe_add_callback_to_list.
  destruct (isinstance_str cb).
  - unfold _add_string_callback_to_list.
    destruct (negb (py_in cb (deref r st))); [left; reflexivity |].
    right; intros r'; apply deref_debug.
  - destruct (isinstance_Callable cb).
    + unfold _add_callback_function_to_list.
      destruct (negb (py_in cb (deref r st))); [left; reflexivity |].
      right; intros r'.
      destruct (getattr_name cb); [apply deref_debug | reflexivity].
    + destruct (isinstance cb CustomLogger); [| right; reflexivity].
      unfold _add_custom_logger_to_list.
      destruct (instance_exists (type_of cb) (deref r st));
        [right; intros r'; apply deref_debug | left; reflexivity].
Qed.

(** The other lists are not touched. *)
Lemma safe_add_frame cb r r' st :
  r <> r' ->
  deref r' (final (_safe_add_callback_to_list cb r st)) = deref r' st.
Proof.
  intros Hne.
  destruct (safe_add_cases cb r st) as [H | H]; [| apply H].
  rewrite H; simpl; apply deref_assign_other; assumption.
Qed.

(** Every list keeps its entries, in their order, as an initial segment. *)
Lemma safe_add_prefix cb r r' st :
  exists suffix,
    deref r' (final (_safe_add_callback_to_list cb r st))
    = deref r' st ++ suffix.
Proof.
  destruct (safe_add_cases cb r st) as [H | H].
  - rewrite H; simpl.
    destruct (list_ref_eq_dec r r') as [<- | Hne].
    + exists [cb]; apply deref_assign_same.
    + exists []; rewrite app_nil_r; apply deref_assign_other; assumption.
  - exists []; rewrite app_nil_r; apply H.
Qed.

(** A value of no recognized variant is dropped without a trace. *)
Lemma safe_add_unrecognized cb r st :
  variant_of cb = Unrecognized ->
  _safe_add_callback_to_list cb r st = Returns st.
Proof.
  unfold variant_of, _safe_add_callback_to_list.
  destruct (isinstance_str cb); [discriminate |].
  destruct (isinstance_Callable cb); [discriminate |].
  destruct (isinstance cb CustomLogger); [discriminate | reflexivity].
Qed.

Lemma extends_lists_refl st : extends_lists st st.
Proof. intros r; exists []; symmetry; apply app_nil_r. Qed.

Lemma extends_lists_trans st1 st2 st3 :
  extends_lists st1 st2 -> extends_lists st2 st3 -> extends_lists st1 st3.
Proof.
  intros H12 H23 r.
  destruct (H12 r) as [s1 E1]; destruct (H23 r) as [s2 E2].
  exists (s1 ++ s2); rewrite E2, E1, app_assoc; reflexivity.
Qed.

Lemma andthen_extends (p q : proc) :
  (forall st, extends_lists st (final (p st))) ->
  (forall st, extends_lists st (final (q st))) ->
  forall st, extends_lists st (final ((p ;; q) st)).
Proof.
  intros Hp Hq st; unfold andthen.
  specialize (Hp st).
  destruct (p st) as [st1 | e st1]; simpl in *; [| assumption].
  eapply extends_lists_trans; [exact Hp | apply Hq].
Qed.

Lemma safe_add_extends cb r st :
  extends_lists st (final (_safe_add_callback_to_list cb r st)).
Proof. intros r'; apply safe_add_prefix. Qed.

Lemma pass_extends st : extends_lists st (final (pass st)).
Proof. apply extends_lists_refl. Qed.

Lemma run_extends o st : extends_lists st (final (run o st)).
Proof.
  destruct o as [cb|cb|cb|cb|cb|cb|cb|cb|cb|cb]; simpl;
    try apply safe_add_extends.
  - unfold add_success_callback_sync_and_async.
    revert st; repeat apply andthen_extends; intros st;
      first [apply safe_add_extends | apply pass_extends].
  - unfold add_failure_callback_sync_and_async.
    revert st; repeat apply andthen_extends; intros st; apply safe_add_extends.
  - unfold _add_custom_logger_to_all_callback_lists.
    destruct (is_None cb); [apply pass_extends |].
    destruct (isinstance cb CustomLogger); [| apply pass_extends].
    revert st; repeat apply andthen_extends; intros st; apply safe_add_extends.
Qed.

Lemma variant_handler_inv cb :
  variant_of cb = StatefulHandler ->
  isinstance_str cb = false /\ isinstance_Callable cb = false
  /\ isinstance cb CustomLogger = true.
Proof.
  unfold variant_of.
  destruct (isinstance_str cb); [discriminate |].
  destruct (isinstance_Callable cb); [discriminate |].
  destruct (isinstance cb CustomLogger); [auto | discriminate].
Qed.

(** A handler is skipped, with a debug record, as soon as the list holds an
    instance of its class. *)
Lemma safe_add_handler_skipped cb r st :
  variant_of cb = StatefulHandler ->
  instance_exists (type_of cb) (deref r st) = true ->
  _safe_add_callback_to_list cb r st =
  debug (CustomLoggerAlreadyExists (cname (type_of cb))) st.
Proof.
  intros Hv Hex; apply variant_handler_inv in Hv as (Hs & Hc & Hl).
  unfold _safe_add_callback_to_list, _add_custom_logger_to_list.
  rewrite Hs, Hc, Hl, Hex; reflexivity.
Qed.

(** The only exception a guarded append can raise, and when. *)
Lemma safe_add_raises cb r st e st' :
  _safe_add_callback_to_list cb r st = Raises e st' ->
  e = AttributeError "__name__" /\ st' = st
  /\ variant_of cb = FunctionCallback
  /\ py_in cb (deref r st) = true /\ getattr_name cb = None.
Proof.
  unfold _safe_add_callback_to_list, variant_of.
  destruct (isinstance_str cb).
  - unfold _add_string_callback_to_list.
    destruct (negb (py_in cb (deref r st))); discriminate.
  - destruct (isinstance_Callable cb).
    + unfold _add_callback_function_to_list.
      destruct (py_in cb (deref r st)); simpl; [| discriminate].
      destruct (getattr_name cb); [discriminate |].
      unfold raise; intros H; inversion H; auto.
    + destruct (isinstance cb CustomLogger); [| discriminate].
      unfold _add_custom_logger_to_list.
      destruct (instance_exists (type_of cb) (deref r st)); discriminate.
Qed.

(** ** Reset *)

(** C3: from any state, [_reset_all_callbacks] returns with the input,
    sync-success, sync-failure, async-success and async-failure lists empty,
    and with the service list and the generic list exactly as they were. *)
Theorem reset_clears_five_lists_only st :
  exists st',
    _reset_all_callbacks st = Returns st'
    /\ input_callback st' = []
    /\ success_callback st' = []
    /\ failure_callback st' = []
    /\ _async_success_callback st' = []
    /\ _async_failure_callback st' = []
    /\ service_callback st' = service_callback st
    /\ callbacks st' = callbacks st.
Proof.
  eexists; split; [reflexivity |].
  simpl; repeat split.
Qed.

(** ** Unrecognized arguments *)

(** C6: when the argument of a registration operation is neither a string,
    nor a callable, nor a [CustomLogger] instance, the operation returns
    normally and leaves the whole state as it was: no list changes, no
    exception is raised and no debug record is written. *)
Theorem unrecognized_argument_is_noop o st :
  variant_of (argument o) = Unrecognized ->
  run o st = Returns st.
Proof.
  destruct o as [cb|cb|cb|cb|cb|cb|cb|cb|cb|cb]; simpl; intros Hv;
    try (apply safe_add_unrecognized; assumption).
  - unfold add_success_callback_sync_and_async, andthen,
      add_sync_success_callback, add_async_success_callback.
    rewrite !safe_add_unrecognized by assumption; reflexivity.
  - unfold add_failure_callback_sync_and_async, andthen,
      add_sync_failure_callback, add_async_failure_callback.
    rewrite !safe_add_unrecognized by assumption; reflexivity.
  - unfold _add_custom_logger_to_all_callback_lists.
    destruct (is_None cb); [reflexivity |].
    unfold variant_of in Hv.
    destruct (isinstance_str cb); [discriminate |].
    destruct (isinstance_Callable cb); [discriminate |].
    destruct (isinstance cb CustomLogger); [discriminate | reflexivity].
Qed.

Lemma unrecognized_argument_is_noop_witness :
  variant_of (argument (call_add_callback Examples.five)) = Unrecognized
  /\ run (call_add_callback Examples.five) initial = Returns initial.
Proof.
  split; [reflexivity |].
  apply (unrecognized_argument_is_noop (call_add_callback Examples.five));
    reflexivity.
Defined.

(** ** Strings *)

Lemma count_equal_app x l1 l2 :
  count_equal x (l1 ++ l2) = count_equal x l1 + count_equal x l2.
Proof. apply count_occ_app. Qed.

Lemma count_equal_zero x l : py_in x l = false -> count_equal x l = 0.
Proof.
  intros H; apply count_occ_not_In; intros Hin.
  apply py_in_In in Hin; congruence.
Qed.

Lemma count_equal_pos x l : py_in x l = true -> 0 < count_equal x l.
Proof. intros H; apply count_occ_In, py_in_In; assumption. Qed.

Lemma count_equal_self x : count_equal x [x] = 1.
Proof.
  unfold count_equal; simpl.
  destruct (pyvalue_eq_dec x x); [reflexivity | congruence].
Qed.

(** C7: registering the same string twice in a row in any one list that
    does not already hold it several times leaves exactly one entry equal
    to the string; the second registration changes no list; from the empty
    list the result is the one-element list. *)
Theorem string_callback_registered_once r st s :
  count_equal (PyStr s) (deref r st) <= 1 ->
  exists st1 st2,
    _safe_add_callback_to_list (PyStr s) r st = Returns st1
    /\ _safe_add_callback_to_list (PyStr s) r st1 = Returns st2
    /\ count_equal (PyStr s) (deref r st2) = 1
    /\ (forall r', deref r' st2 = deref r' st1)
    /\ (deref r st = [] -> deref r st2 = [PyStr s]).
Proof.
  intros Hle.
  unfold _safe_add_callback_to_list; simpl.
  unfold _add_string_callback_to_list.
  destruct (py_in (PyStr s) (deref r st)) eqn:Hin; simpl.
  - (* already there: both calls only log *)
    exists (logged (CallbackAlreadyExists (PyStr s)) st).
    exists (logged (CallbackAlreadyExists (PyStr s))
              (logged (CallbackAlreadyExists (PyStr s)) st)).
    split; [reflexivity |].
    rewrite deref_logged, Hin; simpl.
    split; [reflexivity |].
    split; [| split].
    + rewrite !deref_logged.
      apply count_equal_pos in Hin; lia.
    + intros r'; apply deref_logged.
    + intros Hnil; rewrite Hnil in Hin; discriminate.
  - (* appended by the first call, found by the second *)
    exists (assign r (deref r st ++ [PyStr s]) st).
    exists (logged (CallbackAlreadyExists (PyStr s))
              (assign r (deref r st ++ [PyStr s]) st)).
    split; [reflexivity |].
    rewrite deref_assign_same, py_in_app; simpl.
    rewrite py_eq_refl, orb_true_r; simpl.
    split; [reflexivity |].
    split; [| split].
    + rewrite deref_logged, deref_assign_same, count_equal_app.
      rewrite (count_equal_zero _ _ Hin), count_equal_self; reflexivity.
    + intros r'; apply deref_logged.
    + intros Hnil.
      rewrite deref_logged, deref_assign_same, Hnil; reflexivity.
Qed.

Lemma string_callback_registered_once_witness :
  count_equal (PyStr "langfuse") (deref litellm_success_callback initial) <= 1
  /\ exists st1 st2,
      _safe_add_callback_to_list (PyStr "langfuse")
        litellm_success_callback initial = Returns st1
      /\ _safe_add_callback_to_list (PyStr "langfuse")
           litellm_success_callback st1 = Returns st2
      /\ count_equal (PyStr "langfuse") (deref litellm_success_callback st2) = 1
      /\ (forall r', deref r' st2 = deref r' st1)
      /\ (deref litellm_success_callback initial = [] ->
          deref litellm_success_callback st2 = [PyStr "langfuse"]).
Proof.
  split; [simpl; lia |].
  apply (string_callback_registered_once
           litellm_success_callback initial "langfuse").
  simpl; lia.
Defined.

(** ** Exceptions *)

(** C5: the claim that no registration raises does not hold of the code.
    Registering a second time a callable that has no [__name__] attribute,
    here [functools.partial(print)] in [litellm.success_callback], raises
    [AttributeError]: the duplicate branch of
    [_add_callback_function_to_list] formats [callback.__name__] into its
    debug message. *)
Theorem duplicate_callable_without_name_raises :
  add_sync_success_callback Examples.partial_print initial
  = Returns (assign litellm_success_callback [Examples.partial_print] initial)
  /\ add_sync_success_callback Examples.partial_print
       (assign litellm_success_callback [Examples.partial_print] initial)
     = Raises (AttributeError "__name__")
         (assign litellm_success_callback [Examples.partial_print] initial).
Proof. split; reflexivity. Qed.

(** ** Order *)

Lemma admissible_nil cb :
  variant_of cb <> Unrecognized -> admissible cb [] = true.
Proof.
  unfold admissible; destruct (variant_of cb); simpl; congruence.
Qed.

Lemma admissible_cons cb e l :
  admissible cb (e :: l) = negb (duplicate_of cb e) && admissible cb l.
Proof.
  unfold admissible; destruct (variant_of cb); simpl; try reflexivity.
  rewrite andb_false_r; reflexivity.
Qed.

(** C8: three recognized callbacks, each distinct under its identity rule
    from the ones registered before it, registered in the order A, B, C in
    an empty list give exactly the list [A; B; C]; and whatever a
    registration operation is called with, and whether it returns or raises,
    every list keeps its former entries in their order as an initial
    segment. *)
Theorem registration_keeps_order :
  (forall r st A B C,
      deref r st = [] ->
      variant_of A <> Unrecognized ->
      variant_of B <> Unrecognized ->
      variant_of C <> Unrecognized ->
      duplicate_of B A = false ->
      duplicate_of C A = false ->
      duplicate_of C B = false ->
      exists st',
        (_safe_add_callback_to_list A r ;;
         _safe_add_callback_to_list B r ;;
         _safe_add_callback_to_list C r) st = Returns st'
        /\ deref r st' = [A; B; C])
  /\ (forall o st r,
         exists suffix, deref r (final (run o st)) = deref r st ++ suffix).
Proof.
  split; [| intros o st r; apply run_extends].
  intros r st A B C Hnil HA HB HC HBA HCA HCB.
  exists (assign r [A; B; C] (assign r [A; B] (assign r [A] st))).
  split; [| apply deref_assign_same].
  erewrite andthen_returns.
  2: { apply safe_add_admissible; rewrite Hnil.
       apply admissible_nil; assumption. }
  rewrite Hnil; simpl.
  erewrite andthen_returns.
  2: { apply safe_add_admissible; rewrite deref_assign_same.
       rewrite admissible_cons, HBA, admissible_nil by assumption.
       reflexivity. }
  rewrite deref_assign_same; simpl.
  rewrite safe_add_admissible.
  - rewrite deref_assign_same; reflexivity.
  - rewrite deref_assign_same.
    rewrite !admissible_cons, HCA, HCB, admissible_nil by assumption.
    reflexivity.
Qed.

Lemma registration_keeps_order_witness :
  deref litellm_callbacks initial = []
  /\ variant_of (PyStr "langfuse") <> Unrecognized
  /\ variant_of (Examples.fn 0) <> Unrecognized
  /\ variant_of Examples.base1 <> Unrecognized
  /\ duplicate_of (Examples.fn 0) (PyStr "langfuse") = false
  /\ duplicate_of Examples.base1 (PyStr "langfuse") = false
  /\ duplicate_of Examples.base1 (Examples.fn 0) = false
  /\ exists st',
      (_safe_add_callback_to_list (PyStr "langfuse") litellm_callbacks ;;
       _safe_add_callback_to_list (Examples.fn 0) litellm_callbacks ;;
       _safe_add_callback_to_list Examples.base1 litellm_callbacks) initial
      = Returns st'
      /\ deref litellm_callbacks st'
         = [PyStr "langfuse"; Examples.fn 0; Examples.base1].
Proof.
  split; [reflexivity |].
  do 3 (split; [discriminate |]).
  do 3 (split; [reflexivity |]).
  apply (proj1 registration_keeps_order
           litellm_callbacks initial
           (PyStr "langfuse") (Examples.fn 0) Examples.base1);
    solve [reflexivity | discriminate].
Defined.

(** ** Handlers *)

Lemma handler_recognized cb :
  variant_of cb = StatefulHandler -> variant_of cb <> Unrecognized.
Proof. congruence. Qed.

(** Two handlers in a row, the second one a duplicate of the first. *)
Lemma second_handler_skipped r st a b :
  deref r st = [] ->
  variant_of a = StatefulHandler ->
  variant_of b = StatefulHandler ->
  isinstance a (type_of b) = true ->
  exists st',
    (_safe_add_callback_to_list a r ;; _safe_add_callback_to_list b r) st
    = Returns st'
    /\ deref r st' = [a].
Proof.
  intros Hnil Ha Hb Hab.
  exists (logged (CustomLoggerAlreadyExists (cname (type_of b)))
            (assign r [a] st)).
  split; [| rewrite deref_logged; apply deref_assign_same].
  erewrite andthen_returns.
  2: { apply safe_add_admissible; rewrite Hnil.
       apply admissible_nil, handler_recognized; assumption. }
  rewrite Hnil; simpl.
  rewrite safe_add_handler_skipped; [reflexivity | assumption |].
  rewrite deref_assign_same; simpl.
  apply variant_handler_inv in Ha as (_ & _ & Hl).
  rewrite Hl, Hab; reflexivity.
Qed.

(** Two handlers in a row, the first one no instance of the second's class. *)
Lemma second_handler_appended r st a b :
  deref r st = [] ->
  variant_of a = StatefulHandler ->
  variant_of b = StatefulHandler ->
  isinstance a (type_of b) = false ->
  exists st',
    (_safe_add_callback_to_list a r ;; _safe_add_callback_to_list b r) st
    = Returns st'
    /\ deref r st' = [a; b].
Proof.
  intros Hnil Ha Hb Hab.
  exists (assign r [a; b] (assign r [a] st)).
  split; [| apply deref_assign_same].
  erewrite andthen_returns.
  2: { apply safe_add_admissible; rewrite Hnil.
       apply admissible_nil, handler_recognized; assumption. }
  rewrite Hnil; simpl.
  rewrite safe_add_admissible.
  - rewrite deref_assign_same; reflexivity.
  - rewrite deref_assign_same, admissible_cons.
    rewrite admissible_nil by (apply handler_recognized; assumption).
    unfold duplicate_of; rewrite Hb, Hab, andb_false_r; reflexivity.
Qed.

(** The claim of C1 about two different concrete classes fails when the
    first handler's class derives from the second's: [DerivedHandler()] then
    [BaseHandler()] leaves one entry. *)
Lemma two_handler_classes_counterexample :
  ~ (forall r st a b,
        deref r st = [] ->
        variant_of a = StatefulHandler ->
        variant_of b = StatefulHandler ->
        cname (type_of a) <> cname (type_of b) ->
        exists st',
          (_safe_add_callback_to_list a r ;;
           _safe_add_callback_to_list b r) st = Returns st'
          /\ List.length (deref r st') = 2).
Proof.
  intros H.
  destruct (H litellm_callbacks initial Examples.derived1 Examples.base1)
    as [st' [Hrun Hlen]]; try reflexivity.
  - simpl; discriminate.
  - vm_compute in Hrun.
    inversion Hrun; subst st'; simpl in Hlen; discriminate.
Qed.

(** C1, amended: in an empty list, registering two instances of the same
    concrete handler class leaves exactly one entry, the first instance;
    registering instances of two handler classes leaves the two entries, in
    order, when the first instance is not an instance of the second one's
    class. *)
Theorem handler_dedup_per_class r st a b :
  deref r st = [] ->
  variant_of a = StatefulHandler ->
  variant_of b = StatefulHandler ->
  (cname (type_of a) = cname (type_of b) ->
   exists st',
     (_safe_add_callback_to_list a r ;; _safe_add_callback_to_list b r) st
     = Returns st'
     /\ deref r st' = [a])
  /\ (isinstance a (type_of b) = false ->
      exists st',
        (_safe_add_callback_to_list a r ;; _safe_add_callback_to_list b r) st
        = Returns st'
        /\ deref r st' = [a; b]).
Proof.
  intros Hnil Ha Hb; split; intros Hab.
  - apply second_handler_skipped; try assumption.
    unfold isinstance, issubclass; simpl.
    rewrite Hab, String.eqb_refl; reflexivity.
  - apply second_handler_appended; assumption.
Qed.

Lemma handler_dedup_per_class_witness :
  deref litellm_callbacks initial = []
  /\ variant_of Examples.base1 = StatefulHandler
  /\ variant_of Examples.base2 = StatefulHandler
  /\ variant_of Examples.other1 = StatefulHandler
  /\ cname (type_of Examples.base1) = cname (type_of Examples.base2)
  /\ isinstance Examples.base1 (type_of Examples.other1) = false
  /\ (exists st',
         (_safe_add_callback_to_list Examples.base1 litellm_callbacks ;;
          _safe_add_callback_to_list Examples.base2 litellm_callbacks) initial
         = Returns st'
         /\ deref litellm_callbacks st' = [Examples.base1])
  /\ (exists st',
         (_safe_add_callback_to_list Examples.base1 litellm_callbacks ;;
          _safe_add_callback_to_list Examples.other1 litellm_callbacks) initial
         = Returns st'
         /\ deref litellm_callbacks st' = [Examples.base1; Examples.other1]).
Proof.
  repeat (split; [reflexivity |]).
  split.
  - apply (proj1 (handler_dedup_per_class litellm_callbacks initial
                    Examples.base1 Examples.base2
                    eq_refl eq_refl eq_refl)).
    reflexivity.
  - apply (proj2 (handler_dedup_per_class litellm_callbacks initial
                    Examples.base1 Examples.other1
                    eq_refl eq_refl eq_refl)).
    reflexivity.
Defined.

(** C10: for handler classes where the class of [b] derives from the class
    of [a] and not the other way round, registering [b] then [a] in an empty
    list leaves the single entry [b], while registering [a] then [b] leaves
    the two entries [a; b]. *)
Theorem handler_dedup_subclass_asymmetry r st a b :
  deref r st = [] ->
  variant_of a = StatefulHandler ->
  variant_of b = StatefulHandler ->
  issubclass (type_of b) (type_of a) = true ->
  issubclass (type_of a) (type_of b) = false ->
  (exists st1,
      (_safe_add_callback_to_list b r ;; _safe_add_callback_to_list a r) st
      = Returns st1
      /\ deref r st1 = [b])
  /\ (exists st2,
         (_safe_add_callback_to_list a r ;; _safe_add_callback_to_list b r) st
         = Returns st2
         /\ deref r st2 = [a; b]).
Proof.
  intros Hnil Ha Hb Hba Hab; split.
  - apply second_handler_skipped; assumption.
  - apply second_handler_appended; assumption.
Qed.

Lemma handler_dedup_subclass_asymmetry_witness :
  deref litellm_success_callback initial = []
  /\ variant_of Examples.base1 = StatefulHandler
  /\ variant_of Examples.derived1 = StatefulHandler
  /\ issubclass (type_of Examples.derived1) (type_of Examples.base1) = true
  /\ issubclass (type_of Examples.base1) (type_of Examples.derived1) = false
  /\ (exists st1,
         (_safe_add_callback_to_list Examples.derived1
            litellm_success_callback ;;
          _safe_add_callback_to_list Examples.base1
            litellm_success_callback) initial
         = Returns st1
         /\ deref litellm_success_callback st1 = [Examples.derived1])
  /\ (exists st2,
         (_safe_add_callback_to_list Examples.base1
            litellm_success_callback ;;
          _safe_add_callback_to_list Examples.derived1
            litellm_success_callback) initial
         = Returns st2
         /\ deref litellm_success_callback st2
            = [Examples.base1; Examples.derived1]).
Proof.
  repeat (split; [reflexivity |]).
  apply (handler_dedup_subclass_asymmetry litellm_success_callback initial
           Examples.base1 Examples.derived1);
    reflexivity.
Defined.

(** ** Broadcast *)

Lemma count_instances_app C l1 l2 :
  count_instances C (l1 ++ l2) = count_instances C l1 + count_instances C l2.
Proof. unfold count_instances; rewrite filter_app, length_app; reflexivity. Qed.

Lemma count_exact_class_app C l1 l2 :
  count_exact_class C (l1 ++ l2)
  = count_exact_class C l1 + count_exact_class C l2.
Proof.
  unfold count_exact_class; rewrite filter_app, length_app; reflexivity.
Qed.

Lemma count_instances_zero C l :
  count_instances C l = 0 ->
  forall e, In e l -> isinstance e C = false.
Proof.
  unfold count_instances.
  induction l as [| x l IH]; simpl; intros Hz e Hin; [contradiction |].
  destruct (isinstance x C) eqn:Hx; simpl in Hz; [discriminate |].
  destruct Hin as [<- | Hin]; [assumption | apply IH; assumption].
Qed.

Lemma exact_class_is_instance e C :
  String.eqb (cname (type_of e)) (cname C) = true -> isinstance e C = true.
Proof.
  intros H; unfold isinstance, issubclass; simpl.
  rewrite String.eqb_sym, H; reflexivity.
Qed.

Lemma count_exact_class_zero C l :
  count_instances C l = 0 -> count_exact_class C l = 0.
Proof.
  unfold count_instances, count_exact_class.
  induction l as [| x l IH]; simpl; intros Hz; [reflexivity |].
  destruct (String.eqb (cname (type_of x)) (cname C)) eqn:Hx.
  - rewrite (exact_class_is_instance _ _ Hx) in Hz; discriminate.
  - destruct (isinstance x C); [discriminate | apply IH; assumption].
Qed.

Lemma count_self_instance h :
  count_instances (type_of h) [h] = 1 /\ count_exact_class (type_of h) [h] = 1.
Proof.
  unfold count_instances, count_exact_class, isinstance; simpl.
  rewrite issubclass_refl, String.eqb_refl; split; reflexivity.
Qed.

Lemma custom_logger_not_None h :
  isinstance h CustomLogger = true -> is_None h = false.
Proof. destruct h; simpl; [discriminate | reflexivity | reflexivity]. Qed.

(** A [CustomLogger] instance whose class has no instance in a list is
    admissible there, whichever branch it is sent to. *)
Lemma fresh_class_admissible h l :
  isinstance h CustomLogger = true ->
  count_instances (type_of h) l = 0 ->
  admissible h l = true.
Proof.
  intros Hcl Hz.
  assert (Hall : forall e, In e l -> duplicate_of h e = false).
  { intros e Hin.
    pose proof (count_instances_zero _ _ Hz e Hin) as He.
    unfold duplicate_of.
    destruct (variant_of h); try reflexivity.
    - destruct (py_eq h e) eqn:Heq; [| reflexivity].
      apply py_eq_true in Heq; subst e.
      unfold isinstance in He; rewrite issubclass_refl in He; discriminate.
    - destruct (py_eq h e) eqn:Heq; [| reflexivity].
      apply py_eq_true in Heq; subst e.
      unfold isinstance in He; rewrite issubclass_refl in He; discriminate.
    - rewrite He; apply andb_false_r. }
  assert (Hrec : variant_of h <> Unrecognized).
  { unfold variant_of.
    destruct (isinstance_str h); [discriminate |].
    destruct (isinstance_Callable h); [discriminate |].
    rewrite Hcl; discriminate. }
  unfold admissible.
  assert (Hfa : forallb (fun e => negb (duplicate_of h e)) l = true).
  { apply forallb_forall; intros e Hin; rewrite (Hall e Hin); reflexivity. }
  destruct (variant_of h); try assumption; congruence.
Qed.

Lemma count_after_fresh h l :
  count_instances (type_of h) l = 0 ->
  count_instances (type_of h) (l ++ [h]) = 1
  /\ count_exact_class (type_of h) (l ++ [h]) = 1.
Proof.
  intros Hz.
  rewrite count_instances_app, count_exact_class_app.
  rewrite (count_exact_class_zero _ _ Hz), Hz.
  destruct (count_self_instance h) as [-> ->]; split; reflexivity.
Qed.

(** The claim of C2 fails when the concrete class of the handler is in no
    list but instances of classes derived from it are: with
    [DerivedHandler()] and [SecondDerivedHandler()] in
    [litellm.success_callback], broadcasting [BaseHandler()] is skipped
    there, and that list holds no entry of class [BaseHandler] and two
    entries that are instances of it, so not exactly one under either way
    of counting. *)
Lemma broadcast_concrete_type_counterexample :
  ~ (forall h st,
        variant_of h = StatefulHandler ->
        (forall r, count_exact_class (type_of h) (deref r st) = 0) ->
        exists st',
          _add_custom_logger_to_all_callback_lists h st = Returns st'
          /\ (forall r, r <> litellm_callbacks ->
                        count_exact_class (type_of h) (deref r st') = 1
                        \/ count_instances (type_of h) (deref r st') = 1)
          /\ List.length (callbacks st') = List.length (callbacks st)).
Proof.
  intros H.
  destruct (H Examples.base1
              (assign litellm_success_callback
                 [Examples.derived1; Examples.derived2] initial))
    as [st' [Hrun [Hone _]]].
  - reflexivity.
  - intros r; destruct r; reflexivity.
  - vm_compute in Hrun.
    inversion Hrun; subst st'.
    destruct (Hone litellm_success_callback) as [Hc | Hc];
      [discriminate | |]; vm_compute in Hc; discriminate.
Qed.

(** C2, amended: broadcasting a [CustomLogger] instance when no entry of
    the six lists (input, service, sync-success, async-success,
    sync-failure, async-failure) is an instance of its class, instances of
    derived classes included, returns normally, appends the instance to
    each of the six, each of which then holds exactly one entry of that
    class, and leaves the generic list [litellm.callbacks], hence its
    length, as it was. *)
Theorem broadcast_fresh_handler h st :
  isinstance h CustomLogger = true ->
  (forall r, r <> litellm_callbacks ->
             count_instances (type_of h) (deref r st) = 0) ->
  exists st',
    _add_custom_logger_to_all_callback_lists h st = Returns st'
    /\ (forall r, r <> litellm_callbacks ->
                  deref r st' = deref r st ++ [h]
                  /\ count_instances (type_of h) (deref r st') = 1
                  /\ count_exact_class (type_of h) (deref r st') = 1)
    /\ callbacks st' = callbacks st
    /\ List.length (callbacks st') = List.length (callbacks st).
Proof.
  intros Hcl Hfresh.
  assert (Hadm : forall r, r <> litellm_callbacks ->
                           admissible h (deref r st) = true).
  { intros r Hr; apply fresh_class_admissible; auto. }
  exists
    (assign litellm_service_callback (service_callback st ++ [h])
    (assign litellm_input_callback (input_callback st ++ [h])
    (assign litellm__async_failure_callback (_async_failure_callback st ++ [h])
    (assign litellm_failure_callback (failure_callback st ++ [h])
    (assign litellm__async_success_callback (_async_success_callback st ++ [h])
    (assign litellm_success_callback (success_callback st ++ [h]) st)))))).
  split; [| split; [| split; reflexivity]].
  - unfold _add_custom_logger_to_all_callback_lists.
    rewrite (custom_logger_not_None _ Hcl), Hcl.
    unfold add_sync_success_callback, add_async_success_callback,
      add_sync_failure_callback, add_async_failure_callback,
      add_input_callback, add_service_callback.
    erewrite andthen_returns.
    2: { apply safe_add_admissible, Hadm; discriminate. }
    erewrite andthen_returns.
    2: { apply safe_add_admissible; simpl.
         apply (Hadm litellm__async_success_callback); discriminate. }
    erewrite andthen_returns.
    2: { apply safe_add_admissible; simpl.
         apply (Hadm litellm_failure_callback); discriminate. }
    erewrite andthen_returns.
    2: { apply safe_add_admissible; simpl.
         apply (Hadm litellm__async_failure_callback); discriminate. }
    erewrite andthen_returns.
    2: { apply safe_add_admissible; simpl.
         apply (Hadm litellm_input_callback); discriminate. }
    rewrite safe_add_admissible; [reflexivity |].
    simpl; apply (Hadm litellm_service_callback); discriminate.
  - intros r Hr.
    assert (Hd : deref r
      (assign litellm_service_callback (service_callback st ++ [h])
      (assign litellm_input_callback (input_callback st ++ [h])
      (assign litellm__async_failure_callback
         (_async_failure_callback st ++ [h])
      (assign litellm_failure_callback (failure_callback st ++ [h])
      (assign litellm__async_success_callback
         (_async_success_callback st ++ [h])
      (assign litellm_success_callback (success_callback st ++ [h]) st))))))
      = deref r st ++ [h]).
    { destruct r; try reflexivity; congruence. }
    rewrite Hd; split; [reflexivity |].
    apply count_after_fresh, Hfresh, Hr.
Qed.

Lemma broadcast_fresh_handler_witness :
  isinstance Examples.base1 CustomLogger = true
  /\ exists st',
      _add_custom_logger_to_all_callback_lists Examples.base1
        (assign litellm_callbacks [PyStr "langfuse"]
           (assign litellm_success_callback [Examples.other1] initial))
      = Returns st'
      /\ (forall r, r <> litellm_callbacks ->
                    deref r st'
                    = deref r
                        (assign litellm_callbacks [PyStr "langfuse"]
                           (assign litellm_success_callback
                              [Examples.other1] initial))
                      ++ [Examples.base1]
                    /\ count_instances (type_of Examples.base1) (deref r st')
                       = 1
                    /\ count_exact_class (type_of Examples.base1)
                         (deref r st') = 1)
      /\ callbacks st' = [PyStr "langfuse"]
      /\ List.length (callbacks st') = 1.
Proof.
  split; [reflexivity |].
  apply (broadcast_fresh_handler Examples.base1
           (assign litellm_callbacks [PyStr "langfuse"]
              (assign litellm_success_callback [Examples.other1] initial))).
  - reflexivity.
  - intros r _; destruct r; reflexivity.
Defined.

(** ** Capacity *)



(** ** Success callbacks, sync and async *)

Lemma admissible_not_in cb l : admissible cb l = true -> py_in cb l = false.
Proof.
  intros Hadm.
  destruct (py_in cb l) eqn:Hin; [| reflexivity].
  apply py_in_In in Hin.
  unfold admissible in Hadm.
  assert (Hfa : forallb (fun e => negb (duplicate_of cb e)) l = true)
    by (destruct (variant_of cb); congruence).
  rewrite forallb_forall in Hfa; specialize (Hfa cb Hin).
  apply negb_true_iff in Hfa.
  unfold duplicate_of in Hfa.
  destruct (variant_of cb) eqn:Hv; try discriminate.
  - rewrite py_eq_refl in Hfa; discriminate.
  - rewrite py_eq_refl in Hfa; discriminate.
  - apply variant_handler_inv in Hv as (_ & _ & Hl).
    unfold isinstance in Hfa at 2.
    rewrite Hl, issubclass_refl in Hfa; discriminate.
Qed.

(** The claim of C9 fails for a handler that is in no list while a success
    list holds an instance of a class derived from the handler's class:
    the handler is skipped in that list. *)
Lemma success_sync_and_async_counterexample :
  ~ (forall cb st,
        variant_of cb <> Unrecognized ->
        (forall r, py_in cb (deref r st) = false) ->
        exists st',
          add_success_callback_sync_and_async cb st = Returns st'
          /\ py_in cb (success_callback st') = true
          /\ py_in cb (_async_success_callback st') = true
          /\ py_in cb (failure_callback st') = false
          /\ py_in cb (_async_failure_callback st') = false
          /\ failure_callback st' = failure_callback st
          /\ _async_failure_callback st' = _async_failure_callback st).
Proof.
  intros H.
  destruct (H Examples.base1
              (assign litellm_success_callback [Examples.derived1] initial))
    as [st' [Hrun [Hin _]]].
  - discriminate.
  - intros r; destruct r; reflexivity.
  - vm_compute in Hrun.
    inversion Hrun; subst st'.
    vm_compute in Hin; discriminate.
Qed.

(** C9, amended: when [cb] is admissible in both success lists (a string,
    callable or handler of which neither list holds a duplicate under the
    identity rule of its variant) and is in neither failure list,
    [add_success_callback_sync_and_async] returns normally, appends [cb] to
    the sync-success and the async-success list, and leaves the two failure
    lists as they were, without [cb]. *)
Theorem success_registered_sync_and_async cb st :
  admissible cb (success_callback st) = true ->
  admissible cb (_async_success_callback st) = true ->
  py_in cb (failure_callback st) = false ->
  py_in cb (_async_failure_callback st) = false ->
  exists st',
    add_success_callback_sync_and_async cb st = Returns st'
    /\ success_callback st' = success_callback st ++ [cb]
    /\ _async_success_callback st' = _async_success_callback st ++ [cb]
    /\ py_in cb (success_callback st') = true
    /\ py_in cb (_async_success_callback st') = true
    /\ failure_callback st' = failure_callback st
    /\ _async_failure_callback st' = _async_failure_callback st
    /\ py_in cb (failure_callback st') = false
    /\ py_in cb (_async_failure_callback st') = false.
Proof.
  intros Hs Ha Hf Haf.
  exists (assign litellm__async_success_callback
            (_async_success_callback st ++ [cb])
            (assign litellm_success_callback
               (success_callback st ++ [cb]) st)).
  split.
  - unfold add_success_callback_sync_and_async,
      add_sync_success_callback, add_async_success_callback.
    erewrite andthen_returns.
    2: { apply safe_add_admissible; exact Hs. }
    erewrite andthen_returns.
    2: { apply safe_add_admissible; exact Ha. }
    reflexivity.
  - simpl.
    rewrite !py_in_app; simpl; rewrite py_eq_refl, !orb_true_r.
    repeat split; assumption.
Qed.

Lemma success_registered_sync_and_async_witness :
  admissible Examples.base1
    (success_callback
       (assign litellm_failure_callback [Examples.derived1] initial)) = true
  /\ admissible Examples.base1
       (_async_success_callback
          (assign litellm_failure_callback [Examples.derived1] initial)) = true
  /\ py_in Examples.base1
       (failure_callback
          (assign litellm_failure_callback [Examples.derived1] initial)) = false
  /\ py_in Examples.base1
       (_async_failure_callback
          (assign litellm_failure_callback [Examples.derived1] initial)) = false
  /\ exists st',
      add_success_callback_sync_and_async Examples.base1
        (assign litellm_failure_callback [Examples.derived1] initial)
      = Returns st'
      /\ success_callback st' = [Examples.base1]
      /\ _async_success_callback st' = [Examples.base1]
      /\ py_in Examples.base1 (success_callback st') = true
      /\ py_in Examples.base1 (_async_success_callback st') = true
      /\ failure_callback st' = [Examples.derived1]
      /\ _async_failure_callback st' = []
      /\ py_in Examples.base1 (failure_callback st') = false
      /\ py_in Examples.base1 (_async_failure_callback st') = false.
Proof.
  repeat (split; [reflexivity |]).
  apply (success_registered_sync_and_async Examples.base1
           (assign litellm_failure_callback [Examples.derived1] initial));
    reflexivity.
Defined.

(** * Further properties of the registration operations *)

(** ** Every operation is a row of guarded appends *)

Lemma andthen_pass (p : proc) st : (p ;; pass) st = p st.
Proof. unfold andthen, pass; destruct (p st); reflexivity. Qed.

Lemma andthen_congr (p q q' : proc) :
  (forall st, q st = q' st) -> forall st, (p ;; q) st = (p ;; q') st.
Proof.
  intros H st; unfold andthen; destruct (p st); [apply H | reflexivity].
Qed.

Lemma run_add_to_each o st :
  run o st = add_to_each (argument o) (targets o) st.
Proof.
  destruct o as [cb|cb|cb|cb|cb|cb|cb|cb|cb|cb]; simpl;
    try (symmetry; apply andthen_pass).
  - reflexivity.
  - unfold add_failure_callback_sync_and_async.
    revert st; apply andthen_congr; intros st.
    symmetry; apply andthen_pass.
  - unfold _add_custom_logger_to_all_callback_lists.
    destruct (is_None cb); [reflexivity |].
    destruct (isinstance cb CustomLogger); [| reflexivity].
    simpl; revert st.
    do 5 apply andthen_congr.
    intros st; symmetry; apply andthen_pass.
Qed.

Lemma targets_NoDup o : NoDup (targets o).
Proof.
  destruct o as [cb|cb|cb|cb|cb|cb|cb|cb|cb|cb]; simpl;
    try destruct (is_None cb); try destruct (isinstance cb CustomLogger);
    repeat constructor; simpl; intuition discriminate.
Qed.

(** ** The guarded append, completely *)

(** The callback is appended exactly when it is admissible; otherwise no
    list changes. *)
Lemma safe_add_spec cb r st :
  (admissible cb (deref r st) = true
   /\ _safe_add_callback_to_list cb r st
      = Returns (assign r (deref r st ++ [cb]) st))
  \/ (admissible cb (deref r st) = false
      /\ forall r', deref r' (final (_safe_add_callback_to_list cb r st))
                    = deref r' st).
Proof.
  destruct (admissible cb (deref r st)) eqn:Hadm.
  - left; split; [reflexivity | apply safe_add_admissible; assumption].
  - right; split; [reflexivity |].
    revert Hadm.
    unfold admissible, duplicate_of, variant_of, _safe_add_callback_to_list.
    destruct (isinstance_str cb).
    + rewrite forallb_negb_existsb; intros H r'.
      unfold _add_string_callback_to_list, py_in; rewrite H.
      apply deref_logged.
    + destruct (isinstance_Callable cb).
      * rewrite forallb_negb_existsb; intros H r'.
        unfold _add_callback_function_to_list, py_in; rewrite H.
        destruct (getattr_name cb); [apply deref_logged | reflexivity].
      * destruct (isinstance cb CustomLogger); [| reflexivity].
        rewrite forallb_negb_existsb, <- instance_exists_existsb; intros H r'.
        unfold _add_custom_logger_to_list.
        apply negb_false_iff in H; rewrite H; apply deref_logged.
Qed.

Lemma duplicate_of_self cb :
  variant_of cb <> Unrecognized -> duplicate_of cb cb = true.
Proof.
  unfold duplicate_of; destruct (variant_of cb) eqn:Hv; intros Hrec;
    try apply py_eq_refl; [| congruence].
  apply variant_handler_inv in Hv as (_ & _ & Hl).
  rewrite Hl; unfold isinstance; apply issubclass_refl.
Qed.

Lemma admissible_app cb l1 l2 :
  admissible cb (l1 ++ l2) = admissible cb l1 && admissible cb l2.
Proof.
  unfold admissible; destruct (variant_of cb);
    try apply forallb_app; reflexivity.
Qed.

Lemma admissible_app_self cb l : admissible cb (l ++ [cb]) = false.
Proof.
  rewrite admissible_app, andb_false_iff; right.
  unfold admissible.
  destruct (variant_of cb) eqn:Hv; [| | | reflexivity]; simpl;
    rewrite duplicate_of_self by congruence; reflexivity.
Qed.

Lemma add_to_each_frame cb refs : forall st r,
  ~ In r refs ->
  deref r (final (add_to_each cb refs st)) = deref r st.
Proof.
  induction refs as [| r0 rest IH]; intros st r Hnin; [reflexivity |].
  simpl; unfold andthen.
  assert (Hne : r0 <> r) by (intros ->; apply Hnin; left; reflexivity).
  pose proof (safe_add_frame cb r0 r st Hne) as Hf.
  destruct (_safe_add_callback_to_list cb r0 st) as [st1 | e st1];
    simpl in Hf; [| assumption].
  rewrite IH; [assumption | intros Hin; apply Hnin; right; assumption].
Qed.

Lemma add_to_each_effect cb refs : forall st r,
  NoDup refs ->
  deref r (final (add_to_each cb refs st)) = deref r st
  \/ (In r refs /\ admissible cb (deref r st) = true
      /\ deref r (final (add_to_each cb refs st)) = deref r st ++ [cb]).
Proof.
  induction refs as [| r0 rest IH]; intros st r Hnd; [left; reflexivity |].
  inversion Hnd as [| ? ? Hnin Hnd']; subst.
  simpl; unfold andthen.
  destruct (list_ref_eq_dec r0 r) as [-> | Hne].
  - destruct (safe_add_spec cb r st) as [[Hadm Hrun] | [Hadm Hsame]].
    + right; split; [left; reflexivity |]; split; [assumption |].
      rewrite Hrun, add_to_each_frame by assumption.
      apply deref_assign_same.
    + left; specialize (Hsame r).
      destruct (_safe_add_callback_to_list cb r st) as [st1 | e st1];
        simpl in Hsame; [| assumption].
      rewrite add_to_each_frame; assumption.
  - pose proof (safe_add_frame cb r0 r st Hne) as Hf.
    destruct (_safe_add_callback_to_list cb r0 st) as [st1 | e st1];
      simpl in Hf; [| left; assumption].
    destruct (IH st1 r Hnd') as [H | (Hin & Hadm & H)].
    + left; rewrite H; assumption.
    + right; rewrite H, Hf in *; auto using in_cons.
Qed.

Lemma add_to_each_returns_effect cb refs : forall st st' r,
  NoDup refs ->
  add_to_each cb refs st = Returns st' ->
  In r refs ->
  deref r st' =
  if admissible cb (deref r st) then deref r st ++ [cb] else deref r st.
Proof.
  induction refs as [| r0 rest IH]; intros st st' r Hnd Hrun Hin;
    [contradiction |].
  inversion Hnd as [| ? ? Hnin Hnd']; subst.
  simpl in Hrun; unfold andthen in Hrun.
  destruct (_safe_add_callback_to_list cb r0 st) as [st1 | e st1] eqn:Hadd;
    [| discriminate].
  destruct Hin as [<- | Hin].
  - pose proof (add_to_each_frame cb rest st1 r0 Hnin) as Hf.
    rewrite Hrun in Hf; simpl in Hf; rewrite Hf.
    destruct (safe_add_spec cb r0 st) as [[Hadm Hr] | [Hadm Hsame]];
      rewrite Hadm.
    + rewrite Hr in Hadd; inversion Hadd; apply deref_assign_same.
    + specialize (Hsame r0); rewrite Hadd in Hsame; assumption.
  - assert (Hne : r0 <> r) by (intros ->; contradiction).
    pose proof (safe_add_frame cb r0 r st Hne) as Hf.
    rewrite Hadd in Hf; simpl in Hf.
    rewrite <- Hf; apply IH; assumption.
Qed.

(** The duplicate branch of a callable without [__name__] raises. *)
Lemma safe_add_nameless_present cb r st :
  variant_of cb = FunctionCallback ->
  getattr_name cb = None ->
  py_in cb (deref r st) = true ->
  _safe_add_callback_to_list cb r st = Raises (AttributeError "__name__") st.
Proof.
  unfold variant_of, _safe_add_callback_to_list.
  destruct (isinstance_str cb); [discriminate |].
  destruct (isinstance_Callable cb).
  - intros _ Hn Hin; unfold _add_callback_function_to_list.
    rewrite Hin, Hn; reflexivity.
  - destruct (isinstance cb CustomLogger); discriminate.
Qed.

Lemma add_to_each_raises cb refs : forall st e st',
  NoDup refs ->
  add_to_each cb refs st = Raises e st' ->
  e = AttributeError "__name__"
  /\ variant_of cb = FunctionCallback
  /\ getattr_name cb = None
  /\ exists r, In r refs /\ py_in cb (deref r st) = true.
Proof.
  induction refs as [| r0 rest IH]; intros st e st' Hnd Hrun;
    [discriminate |].
  inversion Hnd as [| ? ? Hnin Hnd']; subst.
  simpl in Hrun; unfold andthen in Hrun.
  destruct (_safe_add_callback_to_list cb r0 st) as [st1 | e1 st1] eqn:Hadd.
  - destruct (IH st1 e st' Hnd' Hrun) as (He & Hv & Hn & r & Hin & Hp).
    repeat split; try assumption.
    exists r; split; [right; assumption |].
    assert (Hne : r0 <> r) by (intros ->; contradiction).
    pose proof (safe_add_frame cb r0 r st Hne) as Hf.
    rewrite Hadd in Hf; simpl in Hf; rewrite <- Hf; assumption.
  - inversion Hrun; subst e1 st1.
    apply safe_add_raises in Hadd as (He & _ & Hv & Hp & Hn).
    repeat split; try assumption.
    exists r0; split; [left; reflexivity | assumption].
Qed.

Lemma add_to_each_nameless_present cb refs : forall st r,
  NoDup refs ->
  variant_of cb = FunctionCallback ->
  getattr_name cb = None ->
  In r refs ->
  py_in cb (deref r st) = true ->
  exists st', add_to_each cb refs st = Raises (AttributeError "__name__") st'.
Proof.
  induction refs as [| r0 rest IH]; intros st r Hnd Hv Hn Hin Hp;
    [contradiction |].
  inversion Hnd as [| ? ? Hnin Hnd']; subst.
  simpl; unfold andthen.
  destruct (_safe_add_callback_to_list cb r0 st) as [st1 | e1 st1] eqn:Hadd.
  - destruct Hin as [<- | Hin].
    + rewrite (safe_add_nameless_present cb r0 st Hv Hn Hp) in Hadd.
      discriminate.
    + apply (IH st1 r); try assumption.
      assert (Hne : r0 <> r) by (intros ->; contradiction).
      pose proof (safe_add_frame cb r0 r st Hne) as Hf.
      rewrite Hadd in Hf; simpl in Hf; rewrite Hf; assumption.
  - apply safe_add_raises in Hadd as (-> & _); eauto.
Qed.

Lemma admissible_registered cb l :
  variant_of cb <> Unrecognized ->
  admissible cb l = negb (registered cb l).
Proof.
  unfold admissible, registered, duplicate_of.
  destruct (variant_of cb); intros Hrec; try congruence;
    rewrite forallb_negb_existsb; try reflexivity.
  rewrite instance_exists_existsb; reflexivity.
Qed.

(** ** Effect of one call *)

Lemma run_effect o st r :
  deref r (final (run o st)) = deref r st
  \/ (In r (targets o)
      /\ admissible (argument o) (deref r st) = true
      /\ deref r (final (run o st)) = deref r st ++ [argument o]).
Proof.
  rewrite run_add_to_each.
  apply add_to_each_effect, targets_NoDup.
Qed.

(** X1: a call changes a list only by appending its own argument, once, and
    only if the list is one of its targets in which the argument was
    admissible before the call; this holds whether the call returns or
    raises. *)
Theorem operation_appends_only_its_argument o st r :
  deref r (final (run o st)) = deref r st
  \/ (In r (targets o)
      /\ admissible (argument o) (deref r st) = true
      /\ deref r (final (run o st)) = deref r st ++ [argument o]).
Proof.
  rewrite run_add_to_each.
  apply add_to_each_effect, targets_NoDup.
Qed.

(** X2: [litellm.callbacks] is changed by [add_callback] only: every other
    operation, the broadcast included, leaves it as it was. *)
Theorem generic_list_changed_by_add_callback_only o st :
  (forall cb, o <> call_add_callback cb) ->
  callbacks (final (run o st)) = callbacks st.
Proof.
  intros Hne.
  rewrite run_add_to_each.
  apply (add_to_each_frame (argument o) (targets o) st litellm_callbacks).
  destruct o as [cb|cb|cb|cb|cb|cb|cb|cb|cb|cb];
    try (exfalso; apply (Hne cb); reflexivity);
    simpl;
    try (destruct (is_None cb); [| destruct (isinstance cb CustomLogger)]);
    simpl; intuition discriminate.
Qed.

Lemma generic_list_changed_by_add_callback_only_witness :
  (forall cb,
      call__add_custom_logger_to_all_callback_lists Examples.base1
      <> call_add_callback cb)
  /\ callbacks
       (final (run (call__add_custom_logger_to_all_callback_lists
                      Examples.base1) initial))
     = callbacks initial.
Proof.
  split; [discriminate |].
  apply (generic_list_changed_by_add_callback_only
           (call__add_custom_logger_to_all_callback_lists Examples.base1)
           initial).
  discriminate.
Defined.

Lemma run_returns_effect o st st' r :
  run o st = Returns st' ->
  In r (targets o) ->
  deref r st' =
  if admissible (argument o) (deref r st)
  then deref r st ++ [argument o]
  else deref r st.
Proof.
  rewrite run_add_to_each; intros Hrun Hin.
  apply (add_to_each_returns_effect _ _ _ _ _ (targets_NoDup o) Hrun Hin).
Qed.

(** X3: when a call returns, each of its target lists has the argument
    appended if the argument was admissible there, and is unchanged
    otherwise. *)
Theorem returned_call_registers_in_every_target o st st' r :
  run o st = Returns st' ->
  In r (targets o) ->
  deref r st' =
  if admissible (argument o) (deref r st)
  then deref r st ++ [argument o]
  else deref r st.
Proof.
  rewrite run_add_to_each; intros Hrun Hin.
  apply (add_to_each_returns_effect _ _ _ _ _ (targets_NoDup o) Hrun Hin).
Qed.

Lemma returned_call_registers_in_every_target_witness :
  run (call_add_failure_callback_sync_and_async (PyStr "sentry"))
      (assign litellm_failure_callback [PyStr "sentry"] initial)
  = Returns
      (assign litellm__async_failure_callback [PyStr "sentry"]
         (logged (CallbackAlreadyExists (PyStr "sentry"))
            (assign litellm_failure_callback [PyStr "sentry"] initial)))
  /\ In litellm__async_failure_callback
        (targets (call_add_failure_callback_sync_and_async (PyStr "sentry")))
  /\ deref litellm__async_failure_callback
       (assign litellm__async_failure_callback [PyStr "sentry"]
          (logged (CallbackAlreadyExists (PyStr "sentry"))
             (assign litellm_failure_callback [PyStr "sentry"] initial)))
     = [PyStr "sentry"].
Proof.
  split; [reflexivity |].
  split; [right; left; reflexivity |].
  apply (returned_call_registers_in_every_target
           (call_add_failure_callback_sync_and_async (PyStr "sentry"))
           (assign litellm_failure_callback [PyStr "sentry"] initial)
           _ litellm__async_failure_callback).
  - reflexivity.
  - right; left; reflexivity.
Defined.

(** X4: a call raises exactly when its argument is a callable without
    [__name__] that is already an entry of one of the call's target lists;
    the exception is then [AttributeError] on [__name__], and nothing
    else is ever raised. *)
Theorem call_raises_iff o st :
  ((exists e st', run o st = Raises e st')
   <-> (variant_of (argument o) = FunctionCallback
        /\ getattr_name (argument o) = None
        /\ exists r, In r (targets o)
                     /\ py_in (argument o) (deref r st) = true))
  /\ (forall e st', run o st = Raises e st' ->
                    e = AttributeError "__name__").
Proof.
  split; [split |].
  - intros [e [st' Hrun]]; rewrite run_add_to_each in Hrun.
    apply add_to_each_raises in Hrun as (_ & Hv & Hn & Hr);
      [auto | apply targets_NoDup].
  - intros (Hv & Hn & r & Hin & Hp).
    rewrite run_add_to_each.
    destruct (add_to_each_nameless_present _ _ st r (targets_NoDup o)
                Hv Hn Hin Hp) as [st' Hrun].
    eauto.
  - intros e st' Hrun; rewrite run_add_to_each in Hrun.
    apply add_to_each_raises in Hrun as (He & _);
      [assumption | apply targets_NoDup].
Qed.

(** X5: when a call with a recognized argument returns, the argument is
    registered in each target list: a string or callable is an entry of the
    list, and for a handler the list holds an instance of its class. *)
Theorem returned_call_leaves_argument_registered o st st' r :
  run o st = Returns st' ->
  variant_of (argument o) <> Unrecognized ->
  In r (targets o) ->
  registered (argument o) (deref r st') = true.
Proof.
  intros Hrun Hrec Hin.
  rewrite (run_returns_effect o st st' r Hrun Hin).
  destruct (admissible (argument o) (deref r st)) eqn:Hadm.
  - pose proof (admissible_app_self (argument o) (deref r st)) as H.
    rewrite admissible_registered in H by assumption.
    apply negb_false_iff in H; assumption.
  - rewrite admissible_registered in Hadm by assumption.
    apply negb_false_iff in Hadm; assumption.
Qed.

Lemma returned_call_leaves_argument_registered_witness :
  run (call_add_callback Examples.base1)
      (assign litellm_callbacks [Examples.derived1] initial)
  = Returns
      (logged (CustomLoggerAlreadyExists "BaseHandler")
         (assign litellm_callbacks [Examples.derived1] initial))
  /\ variant_of (argument (call_add_callback Examples.base1)) <> Unrecognized
  /\ In litellm_callbacks (targets (call_add_callback Examples.base1))
  /\ registered (argument (call_add_callback Examples.base1))
       (deref litellm_callbacks
          (logged (CustomLoggerAlreadyExists "BaseHandler")
             (assign litellm_callbacks [Examples.derived1] initial)))
     = true.
Proof.
  split; [reflexivity |].
  split; [discriminate |].
  split; [left; reflexivity |].
  apply (returned_call_leaves_argument_registered
           (call_add_callback Examples.base1)
           (assign litellm_callbacks [Examples.derived1] initial)
           _ litellm_callbacks).
  - reflexivity.
  - discriminate.
  - left; reflexivity.
Defined.

(** ** Calling twice *)

Lemma safe_add_settles cb r st :
  admissible cb (deref r (final (_safe_add_callback_to_list cb r st))) = false.
Proof.
  destruct (safe_add_spec cb r st) as [[Hadm Hrun] | [Hadm Hsame]].
  - rewrite Hrun; simpl; rewrite deref_assign_same.
    apply admissible_app_self.
  - rewrite Hsame; assumption.
Qed.

Lemma add_to_each_settled cb refs : forall st,
  (forall r, In r refs -> admissible cb (deref r st) = false) ->
  forall r', deref r' (final (add_to_each cb refs st)) = deref r' st.
Proof.
  induction refs as [| r0 rest IH]; intros st Hset r'; [reflexivity |].
  simpl; unfold andthen.
  destruct (safe_add_spec cb r0 st) as [[Hadm _] | [_ Hsame]].
  - rewrite (Hset r0) in Hadm by (left; reflexivity); discriminate.
  - destruct (_safe_add_callback_to_list cb r0 st) as [st1 | e st1];
      simpl in Hsame; [| apply Hsame].
    rewrite IH; [apply Hsame |].
    intros r Hin; rewrite Hsame; apply Hset; right; assumption.
Qed.

Lemma add_to_each_raised_head cb r0 rest st e st1 :
  NoDup (r0 :: rest) ->
  add_to_each cb (r0 :: rest) st = Raises e st1 ->
  variant_of cb = FunctionCallback /\ getattr_name cb = None
  /\ py_in cb (deref r0 st1) = true.
Proof.
  intros Hnd Hrun.
  destruct (add_to_each_raises _ _ _ _ _ Hnd Hrun) as (_ & Hv & Hn & _).
  split; [assumption |]; split; [assumption |].
  inversion Hnd as [| ? ? Hnin Hnd']; subst.
  simpl in Hrun; unfold andthen in Hrun.
  pose proof (safe_add_settles cb r0 st) as Hset.
  destruct (_safe_add_callback_to_list cb r0 st) as [st0 | e0 st0] eqn:Hadd;
    simpl in Hset.
  - pose proof (add_to_each_frame cb rest st0 r0 Hnin) as Hf.
    rewrite Hrun in Hf; simpl in Hf; rewrite Hf.
    rewrite admissible_registered in Hset by congruence.
    apply negb_false_iff in Hset.
    unfold registered in Hset; rewrite Hv in Hset; assumption.
  - inversion Hrun; subst e0 st0.
    apply safe_add_raises in Hadd as (_ & -> & _ & Hp & _); assumption.
Qed.

Lemma add_to_each_twice cb refs st r :
  NoDup refs ->
  deref r (final (add_to_each cb refs (final (add_to_each cb refs st))))
  = deref r (final (add_to_each cb refs st)).
Proof.
  intros Hnd.
  destruct (add_to_each cb refs st) as [st1 | e st1] eqn:Hrun; simpl.
  - apply add_to_each_settled; intros r1 Hin.
    rewrite (add_to_each_returns_effect _ _ _ _ _ Hnd Hrun Hin).
    destruct (admissible cb (deref r1 st)) eqn:Hadm;
      [apply admissible_app_self | assumption].
  - destruct refs as [| r0 rest]; [discriminate |].
    destruct (add_to_each_raised_head _ _ _ _ _ _ Hnd Hrun)
      as (Hv & Hn & Hp).
    simpl; unfold andthen.
    rewrite (safe_add_nameless_present cb r0 st1 Hv Hn Hp); reflexivity.
Qed.

(** X6: calling an operation a second time with the same argument changes
    no list, whatever the argument and whether the calls return or raise. *)
Theorem second_call_changes_no_list o st r :
  deref r (final (run o (final (run o st)))) = deref r (final (run o st)).
Proof.
  rewrite !run_add_to_each.
  apply add_to_each_twice, targets_NoDup.
Qed.

(** ** Invariants *)

Lemma NoDup_snoc (x : pyvalue) l : NoDup l -> ~ In x l -> NoDup (l ++ [x]).
Proof.
  induction l as [| y l IH]; intros Hnd Hnin; simpl.
  - constructor; [intros [] | constructor].
  - inversion Hnd as [| ? ? Hy Hnd']; subst.
    constructor.
    + rewrite in_app_iff; intros [Hin | [-> | []]];
        [contradiction | apply Hnin; left; reflexivity].
    + apply IH; [assumption | intros Hin; apply Hnin; right; assumption].
Qed.

Lemma admissible_not_In cb l : admissible cb l = true -> ~ In cb l.
Proof.
  intros Hadm Hin.
  assert (Hrec : variant_of cb <> Unrecognized)
    by (unfold admissible in Hadm; destruct (variant_of cb); congruence).
  assert (Hfa : forallb (fun e => negb (duplicate_of cb e)) l = true)
    by (unfold admissible in Hadm; destruct (variant_of cb); congruence).
  rewrite forallb_forall in Hfa; specialize (Hfa cb Hin).
  rewrite duplicate_of_self in Hfa by assumption; discriminate.
Qed.

Lemma count_handlers_app C l1 l2 :
  count_handlers C (l1 ++ l2) = count_handlers C l1 + count_handlers C l2.
Proof. unfold count_handlers; rewrite filter_app, length_app; reflexivity. Qed.

Lemma admissible_no_handler_of_class C cb l :
  admissible cb l = true ->
  handler_of_class C cb = true ->
  count_handlers C l = 0.
Proof.
  intros Hadm Hcb.
  unfold handler_of_class in Hcb.
  destruct (variant_of cb) eqn:Hv; try discriminate.
  unfold admissible in Hadm; rewrite Hv in Hadm.
  rewrite forallb_forall in Hadm.
  unfold count_handlers.
  induction l as [| e l IH]; [reflexivity |]; simpl.
  destruct (handler_of_class C e) eqn:He.
  - exfalso.
    specialize (Hadm e (or_introl eq_refl)).
    unfold duplicate_of in Hadm; rewrite Hv in Hadm.
    unfold handler_of_class in He.
    destruct (variant_of e) eqn:Hve; try discriminate.
    apply variant_handler_inv in Hve as (_ & _ & Hl).
    rewrite Hl in Hadm; simpl in Hadm.
    apply String.eqb_eq in He, Hcb.
    assert (Hi : isinstance e (type_of cb) = true).
    { apply exact_class_is_instance, String.eqb_eq; congruence. }
    rewrite Hi in Hadm; discriminate.
  - apply IH; intros x Hx; apply Hadm; right; assumption.
Qed.

Lemma count_handlers_single C cb : count_handlers C [cb] <= 1.
Proof.
  unfold count_handlers; simpl; destruct (handler_of_class C cb); simpl; lia.
Qed.

Lemma exec_keeps_no_duplicates c st :
  no_duplicates st -> no_duplicates (final (exec c st)).
Proof.
  intros Hinv r; specialize (Hinv r).
  destruct c as [o |]; simpl.
  - destruct (run_effect o st r) as [H | (_ & Hadm & H)];
      rewrite H; [assumption |].
    apply NoDup_snoc; [assumption | apply admissible_not_In; assumption].
  - destruct r; simpl; first [assumption | constructor].
Qed.

(** X7: a registration or a reset never creates a duplicate entry: if no
    list holds the same entry twice before the command, none does after
    it. *)
Theorem commands_keep_no_duplicates c st :
  no_duplicates st -> no_duplicates (final (exec c st)).
Proof.
  intros Hinv r; specialize (Hinv r).
  destruct c as [o |]; simpl.
  - destruct (run_effect o st r) as [H | (_ & Hadm & H)];
      rewrite H; [assumption |].
    apply NoDup_snoc; [assumption | apply admissible_not_In; assumption].
  - destruct r; simpl; first [assumption | constructor].
Qed.

Lemma initial_no_duplicates : no_duplicates initial.
Proof. intros r; destruct r; constructor. Qed.

Lemma commands_keep_no_duplicates_witness :
  no_duplicates
    (assign litellm_callbacks [PyStr "langfuse"; Examples.fn 0] initial)
  /\ no_duplicates
       (final (exec (Call (call_add_callback (PyStr "langfuse")))
                 (assign litellm_callbacks [PyStr "langfuse"; Examples.fn 0]
                    initial))).
Proof.
  assert (H : no_duplicates
                (assign litellm_callbacks [PyStr "langfuse"; Examples.fn 0]
                   initial)).
  { intros r; destruct r; simpl; repeat constructor; simpl;
      intuition discriminate. }
  split; [exact H |].
  apply (commands_keep_no_duplicates
           (Call (call_add_callback (PyStr "langfuse")))
           (assign litellm_callbacks [PyStr "langfuse"; Examples.fn 0]
              initial)).
  exact H.
Defined.

Lemma exec_keeps_one_handler c st :
  one_handler_per_class st -> one_handler_per_class (final (exec c st)).
Proof.
  intros Hinv r C; specialize (Hinv r C).
  destruct c as [o |]; simpl.
  - destruct (run_effect o st r) as [H | (_ & Hadm & H)];
      rewrite H; [assumption |].
    rewrite count_handlers_app.
    destruct (handler_of_class C (argument o)) eqn:Hcb.
    + rewrite (admissible_no_handler_of_class _ _ _ Hadm Hcb).
      apply count_handlers_single.
    + unfold count_handlers at 2; simpl; rewrite Hcb; simpl; lia.
  - destruct r; simpl; first [assumption | apply Nat.le_0_l].
Qed.

(** X8: a registration or a reset never leaves two handlers of the same
    concrete class in a list: if every list holds at most one handler per
    concrete class before the command, so it does after it. *)
Theorem commands_keep_one_handler_per_class c st :
  one_handler_per_class st -> one_handler_per_class (final (exec c st)).
Proof.
  intros Hinv r C; specialize (Hinv r C).
  destruct c as [o |]; simpl.
  - destruct (run_effect o st r) as [H | (_ & Hadm & H)];
      rewrite H; [assumption |].
    rewrite count_handlers_app.
    destruct (handler_of_class C (argument o)) eqn:Hcb.
    + rewrite (admissible_no_handler_of_class _ _ _ Hadm Hcb).
      apply count_handlers_single.
    + unfold count_handlers at 2; simpl; rewrite Hcb; simpl; lia.
  - destruct r; simpl; first [assumption | apply Nat.le_0_l].
Qed.

Lemma initial_one_handler_per_class : one_handler_per_class initial.
Proof. intros r C; destruct r; apply Nat.le_0_l. Qed.

Lemma commands_keep_one_handler_per_class_witness :
  one_handler_per_class
    (assign litellm_input_callback [Examples.derived1] initial)
  /\ one_handler_per_class
       (final (exec (Call (call__add_custom_logger_to_all_callback_lists
                             Examples.base1))
                 (assign litellm_input_callback [Examples.derived1]
                    initial))).
Proof.
  assert (H : one_handler_per_class
                (assign litellm_input_callback [Examples.derived1] initial)).
  { intros r C; destruct r;
      first [exact (count_handlers_single C Examples.derived1)
            | exact (Nat.le_0_l 1)]. }
  split; [exact H |].
  apply (commands_keep_one_handler_per_class
           (Call (call__add_custom_logger_to_all_callback_lists
                    Examples.base1))
           (assign litellm_input_callback [Examples.derived1] initial)).
  exact H.
Defined.

Lemma after_history_invariant (P : litellm -> Prop) :
  (forall c st, P st -> P (final (exec c st))) ->
  forall cs st, P st -> P (after_history cs st).
Proof.
  intros Hstep cs; unfold after_history.
  induction cs as [| c cs IH]; intros st HP; simpl; [assumption |].
  apply IH, Hstep, HP.
Qed.

(** X9: in every state reached from the initial one by registrations and
    resets, in any number and order and whether or not some of them raise,
    no list holds the same entry twice and no list holds two handlers of
    the same concrete class. *)
Theorem reachable_lists_are_deduplicated cs :
  no_duplicates (after_history cs initial)
  /\ one_handler_per_class (after_history cs initial).
Proof.
  split.
  - apply (after_history_invariant no_duplicates);
      [apply exec_keeps_no_duplicates | apply initial_no_duplicates].
  - apply (after_history_invariant one_handler_per_class);
      [apply exec_keeps_one_handler | apply initial_one_handler_per_class].
Qed.

(** ** Callables *)

Lemma function_admissible f l :
  variant_of f = FunctionCallback ->
  py_in f l = false ->
  admissible f l = true.
Proof.
  intros Hv Hin.
  rewrite admissible_registered by congruence.
  unfold registered; rewrite Hv, Hin; reflexivity.
Qed.

(** X10: callables are deduplicated by the [in] test alone, never by
    class.  Two callables that are not in a list, the second of which does
    not compare equal to the first, are both appended to it, in the order of
    the calls, whatever their classes (instances of one class, or of a
    [CustomLogger] class with [__call__], included); and registering again
    one that has a [__name__] writes a debug record and changes nothing
    else. *)
Theorem callables_registered_unless_in_list r st f g :
  variant_of f = FunctionCallback ->
  variant_of g = FunctionCallback ->
  py_eq g f = false ->
  py_in f (deref r st) = false ->
  py_in g (deref r st) = false ->
  exists st1 st2,
    _safe_add_callback_to_list f r st = Returns st1
    /\ _safe_add_callback_to_list g r st1 = Returns st2
    /\ deref r st2 = deref r st ++ [f; g]
    /\ (forall name, getattr_name f = Some name ->
                     _safe_add_callback_to_list f r st2
                     = Returns (logged (CallbackFunctionAlreadyExists name)
                                  st2)).
Proof.
  intros Hf Hg Hne Hinf Hing.
  exists (assign r (deref r st ++ [f]) st).
  exists (assign r ((deref r st ++ [f]) ++ [g])
            (assign r (deref r st ++ [f]) st)).
  split; [apply safe_add_admissible, function_admissible; assumption |].
  split.
  - rewrite safe_add_admissible; rewrite deref_assign_same; [reflexivity |].
    apply function_admissible; [assumption |].
    rewrite py_in_app, Hing; simpl.
    rewrite Hne; reflexivity.
  - split; [rewrite deref_assign_same, <- app_assoc; reflexivity |].
    intros name Hname.
    unfold variant_of in Hf.
    unfold _safe_add_callback_to_list, _add_callback_function_to_list.
    destruct (isinstance_str f); [discriminate |].
    destruct (isinstance_Callable f);
      [| destruct (isinstance f CustomLogger); discriminate].
    rewrite deref_assign_same, !py_in_app; simpl.
    rewrite py_eq_refl, Hname; simpl.
    rewrite orb_true_r; reflexivity.
Qed.

Lemma callables_registered_unless_in_list_witness :
  variant_of (Examples.fn 0) = FunctionCallback
  /\ variant_of (Examples.fn 1) = FunctionCallback
  /\ py_eq (Examples.fn 1) (Examples.fn 0) = false
  /\ py_in (Examples.fn 0)
       (deref litellm_service_callback
          (assign litellm_service_callback [Examples.base1] initial)) = false
  /\ py_in (Examples.fn 1)
       (deref litellm_service_callback
          (assign litellm_service_callback [Examples.base1] initial)) = false
  /\ exists st1 st2,
      _safe_add_callback_to_list (Examples.fn 0) litellm_service_callback
        (assign litellm_service_callback [Examples.base1] initial)
      = Returns st1
      /\ _safe_add_callback_to_list (Examples.fn 1) litellm_service_callback
           st1 = Returns st2
      /\ deref litellm_service_callback st2
         = deref litellm_service_callback
             (assign litellm_service_callback [Examples.base1] initial)
           ++ [Examples.fn 0; Examples.fn 1]
      /\ (forall name,
             getattr_name (Examples.fn 0) = Some name ->
             _safe_add_callback_to_list (Examples.fn 0)
               litellm_service_callback st2
             = Returns (logged (CallbackFunctionAlreadyExists name) st2)).
Proof.
  do 5 (split; [reflexivity |]).
  apply (callables_registered_unless_in_list litellm_service_callback
           (assign litellm_service_callback [Examples.base1] initial)
           (Examples.fn 0) (Examples.fn 1));
    reflexivity.
Defined.

(** ** Failure callbacks, sync and async *)

(** X11: when [cb] is admissible in both failure lists,
    [add_failure_callback_sync_and_async] returns normally, appends [cb] to
    the sync-failure and the async-failure list, and leaves the other five
    lists as they were. *)
Theorem failure_registered_sync_and_async cb st :
  admissible cb (failure_callback st) = true ->
  admissible cb (_async_failure_callback st) = true ->
  exists st',
    add_failure_callback_sync_and_async cb st = Returns st'
    /\ failure_callback st' = failure_callback st ++ [cb]
    /\ _async_failure_callback st' = _async_failure_callback st ++ [cb]
    /\ success_callback st' = success_callback st
    /\ _async_success_callback st' = _async_success_callback st
    /\ input_callback st' = input_callback st
    /\ service_callback st' = service_callback st
    /\ callbacks st' = callbacks st.
Proof.
  intros Hf Ha.
  exists (assign litellm__async_failure_callback
            (_async_failure_callback st ++ [cb])
            (assign litellm_failure_callback
               (failure_callback st ++ [cb]) st)).
  split; [| simpl; repeat split].
  unfold add_failure_callback_sync_and_async,
    add_sync_failure_callback, add_async_failure_callback.
  erewrite andthen_returns.
  2: { apply safe_add_admissible; exact Hf. }
  rewrite safe_add_admissible; [reflexivity | exact Ha].
Qed.

Lemma failure_registered_sync_and_async_witness :
  admissible (PyStr "sentry")
    (failure_callback
       (assign litellm_success_callback [PyStr "sentry"] initial)) = true
  /\ admissible (PyStr "sentry")
       (_async_failure_callback
          (assign litellm_success_callback [PyStr "sentry"] initial)) = true
  /\ exists st',
      add_failure_callback_sync_and_async (PyStr "sentry")
        (assign litellm_success_callback [PyStr "sentry"] initial)
      = Returns st'
      /\ failure_callback st' = [PyStr "sentry"]
      /\ _async_failure_callback st' = [PyStr "sentry"]
      /\ success_callback st' = [PyStr "sentry"]
      /\ _async_success_callback st' = []
      /\ input_callback st' = []
      /\ service_callback st' = []
      /\ callbacks st' = [].
Proof.
  do 2 (split; [reflexivity |]).
  apply (failure_registered_sync_and_async (PyStr "sentry")
           (assign litellm_success_callback [PyStr "sentry"] initial));
    reflexivity.
Defined.

(** ** Broadcast, reset, broadcast *)

Lemma run_frame o st r :
  ~ In r (targets o) -> deref r (final (run o st)) = deref r st.
Proof. rewrite run_add_to_each; apply add_to_each_frame. Qed.

Lemma run_returns_unless_nameless o st :
  variant_of (argument o) <> FunctionCallback
  \/ getattr_name (argument o) <> None ->
  exists st', run o st = Returns st'.
Proof.
  intros Hsafe.
  destruct (run o st) as [st' | e st'] eqn:Hrun; [eauto |].
  rewrite run_add_to_each in Hrun.
  apply add_to_each_raises in Hrun as (_ & Hv & Hn & _);
    [| apply targets_NoDup].
  destruct Hsafe; contradiction.
Qed.

Lemma broadcast_targets h :
  isinstance h CustomLogger = true ->
  targets (call__add_custom_logger_to_all_callback_lists h)
  = [litellm_success_callback; litellm__async_success_callback;
     litellm_failure_callback; litellm__async_failure_callback;
     litellm_input_callback; litellm_service_callback].
Proof.
  intros Hl; simpl.
  rewrite (custom_logger_not_None _ Hl), Hl; reflexivity.
Qed.

(** X12: the reset forgets a broadcast handler in five lists but not in the
    service list.  Broadcasting a handler, resetting, and broadcasting it
    again returns normally with the input list and the four success and
    failure lists equal to the one-element list of the handler, while the
    service list is what the first broadcast made of it (the handler
    appended unless an instance of its class was there) and the generic
    list is untouched. *)
Theorem broadcast_reset_broadcast h st :
  variant_of h = StatefulHandler ->
  exists st',
    (_add_custom_logger_to_all_callback_lists h ;;
     _reset_all_callbacks ;;
     _add_custom_logger_to_all_callback_lists h) st = Returns st'
    /\ input_callback st' = [h]
    /\ success_callback st' = [h]
    /\ failure_callback st' = [h]
    /\ _async_success_callback st' = [h]
    /\ _async_failure_callback st' = [h]
    /\ service_callback st' =
       (if instance_exists (type_of h) (service_callback st)
        then service_callback st
        else service_callback st ++ [h])
    /\ callbacks st' = callbacks st.
Proof.
  intros Hv.
  pose proof (variant_handler_inv h Hv) as (_ & _ & Hl).
  set (o := call__add_custom_logger_to_all_callback_lists h).
  assert (Hrec : variant_of (argument o) <> Unrecognized)
    by (simpl; congruence).
  assert (Hsafe : variant_of (argument o) <> FunctionCallback
                  \/ getattr_name (argument o) <> None)
    by (left; simpl; congruence).
  pose proof (broadcast_targets h Hl) as Ht; fold o in Ht.
  assert (Hnil : admissible h [] = true)
    by (apply admissible_nil; congruence).
  destruct (run_returns_unless_nameless o st Hsafe) as [st1 Hrun1].
  destruct (_reset_all_callbacks st1) as [st2 | e st2] eqn:Hreset;
    [| discriminate].
  destruct (run_returns_unless_nameless o st2 Hsafe) as [st3 Hrun3].
  exists st3.
  split.
  { change (_add_custom_logger_to_all_callback_lists h) with (run o).
    rewrite (andthen_returns _ _ _ _ Hrun1).
    rewrite (andthen_returns _ _ _ _ Hreset); assumption. }
  assert (Heff1 : forall r, In r (targets o) ->
            deref r st1 = if admissible h (deref r st)
                          then deref r st ++ [h] else deref r st)
    by (intros r; apply (run_returns_effect o st st1 r Hrun1)).
  assert (Heff3 : forall r, In r (targets o) ->
            deref r st3 = if admissible h (deref r st2)
                          then deref r st2 ++ [h] else deref r st2)
    by (intros r; apply (run_returns_effect o st2 st3 r Hrun3)).
  assert (Hg1 : callbacks st1 = callbacks st).
  { pose proof (run_frame o st litellm_callbacks) as H.
    rewrite Hrun1, Ht in H; apply H; simpl; intuition discriminate. }
  assert (Hg3 : callbacks st3 = callbacks st2).
  { pose proof (run_frame o st2 litellm_callbacks) as H.
    rewrite Hrun3, Ht in H; apply H; simpl; intuition discriminate. }
  rewrite Ht in Heff1, Heff3.
  unfold _reset_all_callbacks in Hreset; inversion Hreset as [Hst2].
  rewrite <- Hst2 in Heff3; simpl in Heff3.
  repeat split.
  - pose proof (Heff3 litellm_input_callback) as H; simpl in H.
    rewrite H, Hnil by tauto; reflexivity.
  - pose proof (Heff3 litellm_success_callback) as H; simpl in H.
    rewrite H, Hnil by tauto; reflexivity.
  - pose proof (Heff3 litellm_failure_callback) as H; simpl in H.
    rewrite H, Hnil by tauto; reflexivity.
  - pose proof (Heff3 litellm__async_success_callback) as H; simpl in H.
    rewrite H, Hnil by tauto; reflexivity.
  - pose proof (Heff3 litellm__async_failure_callback) as H; simpl in H.
    rewrite H, Hnil by tauto; reflexivity.
  - pose proof (Heff3 litellm_service_callback) as H; simpl in H.
    rewrite H by tauto; clear H.
    pose proof (Heff1 litellm_service_callback) as H1; simpl in H1.
    rewrite H1 by tauto.
    rewrite (admissible_registered h (service_callback st)) by congruence.
    unfold registered at 1 3; rewrite Hv.
    destruct (instance_exists (type_of h) (service_callback st)) eqn:Hex;
      simpl.
    + rewrite admissible_registered by congruence.
      unfold registered; rewrite Hv, Hex; reflexivity.
    + rewrite admissible_app_self; reflexivity.
  - rewrite Hg3, <- Hst2; simpl; assumption.
Qed.

Lemma broadcast_reset_broadcast_witness :
  variant_of Examples.base1 = StatefulHandler
  /\ exists st',
      (_add_custom_logger_to_all_callback_lists Examples.base1 ;;
       _reset_all_callbacks ;;
       _add_custom_logger_to_all_callback_lists Examples.base1) initial
      = Returns st'
      /\ input_callback st' = [Examples.base1]
      /\ success_callback st' = [Examples.base1]
      /\ failure_callback st' = [Examples.base1]
      /\ _async_success_callback st' = [Examples.base1]
      /\ _async_failure_callback st' = [Examples.base1]
      /\ service_callback st' = [Examples.base1]
      /\ callbacks st' = [].
Proof.
  split; [reflexivity |].
  apply (broadcast_reset_broadcast Examples.base1 initial); reflexivity.
Defined.

(** ** The debug log *)

Lemma verbose_logger_assign r l st :
  verbose_logger (assign r l st) = verbose_logger st.
Proof. destruct r; reflexivity. Qed.

Lemma safe_add_log cb r st st' :
  variant_of cb <> Unrecognized ->
  _safe_add_callback_to_list cb r st = Returns st' ->
  exists evs,
    verbose_logger st' = verbose_logger st ++ evs
    /\ List.length evs = if admissible cb (deref r st) then 0 else 1.
Proof.
  intros Hrec.
  destruct (admissible cb (deref r st)) eqn:Hadm.
  - rewrite (safe_add_admissible _ _ _ Hadm); intros H; inversion H.
    exists []; rewrite verbose_logger_assign, app_nil_r; auto.
  - revert Hrec Hadm.
    unfold admissible, duplicate_of, variant_of, _safe_add_callback_to_list.
    destruct (isinstance_str cb).
    + rewrite forallb_negb_existsb; intros _ H.
      unfold _add_string_callback_to_list, py_in; rewrite H.
      intros E; inversion E; eexists; split; reflexivity.
    + destruct (isinstance_Callable cb).
      * rewrite forallb_negb_existsb; intros _ H.
        unfold _add_callback_function_to_list, py_in; rewrite H.
        destruct (getattr_name cb); [| discriminate].
        intros E; inversion E; eexists; split; reflexivity.
      * destruct (isinstance cb CustomLogger); [| congruence].
        rewrite forallb_negb_existsb, <- instance_exists_existsb; intros _ H.
        unfold _add_custom_logger_to_list.
        apply negb_false_iff in H; rewrite H.
        intros E; inversion E; eexists; split; reflexivity.
Qed.

Lemma add_to_each_log cb refs : forall st st',
  variant_of cb <> Unrecognized ->
  NoDup refs ->
  add_to_each cb refs st = Returns st' ->
  exists evs,
    verbose_logger st' = verbose_logger st ++ evs
    /\ List.length evs
       = List.length
           (filter (fun r => negb (admissible cb (deref r st))) refs).
Proof.
  induction refs as [| r0 rest IH]; intros st st' Hrec Hnd Hrun.
  - inversion Hrun; exists []; rewrite app_nil_r; auto.
  - inversion Hnd as [| ? ? Hnin Hnd']; subst.
    simpl in Hrun; unfold andthen in Hrun.
    destruct (_safe_add_callback_to_list cb r0 st) as [st1 | e st1] eqn:Hadd;
      [| discriminate].
    destruct (safe_add_log _ _ _ _ Hrec Hadd) as [ev0 [Hlog0 Hlen0]].
    destruct (IH st1 st' Hrec Hnd' Hrun) as [evs [Hlog Hlen]].
    exists (ev0 ++ evs); split.
    + rewrite Hlog, Hlog0, app_assoc; reflexivity.
    + rewrite length_app, Hlen, Hlen0; simpl.
      rewrite (filter_ext_in
                 (fun r => negb (admissible cb (deref r st1)))
                 (fun r => negb (admissible cb (deref r st))) rest).
      * destruct (admissible cb (deref r0 st)); reflexivity.
      * intros r Hin.
        assert (Hne : r0 <> r) by (intros ->; contradiction).
        pose proof (safe_add_frame cb r0 r st Hne) as Hf.
        rewrite Hadd in Hf; simpl in Hf; rewrite Hf; reflexivity.
Qed.

(** X13: a call that returns, with a recognized argument, only adds to the
    debug log, and it adds one record for each of its target lists in which
    the argument was skipped as a duplicate, and none for the lists it
    appended to. *)
Theorem one_debug_record_per_skipped_list o st st' :
  run o st = Returns st' ->
  variant_of (argument o) <> Unrecognized ->
  exists evs,
    verbose_logger st' = verbose_logger st ++ evs
    /\ List.length evs
       = List.length
           (filter (fun r => negb (admissible (argument o) (deref r st)))
                   (targets o)).
Proof.
  rewrite run_add_to_each; intros Hrun Hrec.
  apply (add_to_each_log _ _ _ _ Hrec (targets_NoDup o) Hrun).
Qed.

Lemma one_debug_record_per_skipped_list_witness :
  run (call_add_success_callback_sync_and_async (PyStr "langfuse"))
      (assign litellm_success_callback [PyStr "langfuse"] initial)
  = Returns
      (assign litellm__async_success_callback [PyStr "langfuse"]
         (logged (CallbackAlreadyExists (PyStr "langfuse"))
            (assign litellm_success_callback [PyStr "langfuse"] initial)))
  /\ variant_of
       (argument (call_add_success_callback_sync_and_async (PyStr "langfuse")))
     <> Unrecognized
  /\ exists evs,
      verbose_logger
        (assign litellm__async_success_callback [PyStr "langfuse"]
           (logged (CallbackAlreadyExists (PyStr "langfuse"))
              (assign litellm_success_callback [PyStr "langfuse"] initial)))
      = verbose_logger
          (assign litellm_success_callback [PyStr "langfuse"] initial)
        ++ evs
      /\ List.length evs = 1.
Proof.
  split; [reflexivity |].
  split; [discriminate |].
  apply (one_debug_record_per_skipped_list
           (call_add_success_callback_sync_and_async (PyStr "langfuse"))
           (assign litellm_success_callback [PyStr "langfuse"] initial)).
  - reflexivity.
  - discriminate.
Defined.

(** ** Registrations are never undone by registrations *)

Lemma registered_app cb l1 l2 :
  registered cb l1 = true -> registered cb (l1 ++ l2) = true.
Proof.
  unfold registered; destruct (variant_of cb); try discriminate;
    try (rewrite py_in_app; intros ->; reflexivity).
  rewrite !instance_exists_existsb, existsb_app; intros ->; reflexivity.
Qed.

(** X14: once a callback is registered in a list (a string or callable is
    an entry; for a handler, an instance of its class is an entry), it stays
    registered there through every later registration call, with any
    argument and whether the call returns or raises. *)
Theorem registration_survives_later_calls cb o st r :
  registered cb (deref r st) = true ->
  registered cb (deref r (final (run o st))) = true.
Proof.
  intros Hreg.
  destruct (run_effect o st r) as [H | (_ & _ & H)]; rewrite H;
    [assumption | apply registered_app; assumption].
Qed.

Lemma registration_survives_later_calls_witness :
  registered Examples.base1
    (deref litellm_input_callback
       (assign litellm_input_callback [Examples.derived1] initial)) = true
  /\ registered Examples.base1
       (deref litellm_input_callback
          (final (run (call_add_input_callback (PyStr "langfuse"))
                    (assign litellm_input_callback [Examples.derived1]
                       initial)))) = true.
Proof.
  split; [reflexivity |].
  apply (registration_survives_later_calls Examples.base1
           (call_add_input_callback (PyStr "langfuse"))
           (assign litellm_input_callback [Examples.derived1] initial)
           litellm_input_callback).
  reflexivity.
Defined.

(** ** Capacity, for every operation *)





